(** * personalized.py: the document-to-prompt pipeline

    A shallow embedding of [personalized.py]: the four document readers,
    the web scraper, the template lookup, the prompt assembly of the
    generate handler, the revision prompt of the edit handler, and the
    two session slots both handlers write.

    Python values are modelled as follows.
    - [str] is a list of Unicode code points ([N]); slicing, [strip] and
      [join] work on code points, as in Python 3.
    - [bytes] is a list of [Byte.byte].
    - a [dict] with string keys is a [gmap str _]; [d.get(k, v)] is
      [default v (d !! k)].
    - a call that can raise returns a [result]; [try ... except Exception]
      is a match on it.  Only instances of [Exception] are modelled
      (interpreter signals such as [KeyboardInterrupt] are not failures of
      the calls the handlers guard).
    - [st.session_state] is a record of optional slots ([None]: the key
      was never written); the widgets' side effects ([st.error],
      [st.success], ...) and the calls to the model are appended to a log. *)

From Stdlib Require Import NArith Strings.Byte String.
From stdpp Require Import base option list numbers countable gmap.

(** ** Strings *)

Module Py.

Local Open Scope N_scope.

Abbreviation char := N.
Abbreviation str := (list N).
Abbreviation bytes := (list byte).

(** [bool(s)] for a string. *)
Definition truthy (s : str) : bool :=
match s with [] => false | _ :: _ => true end.

(** [bool(x)] for a value that may be [None]. *)
Definition truthy_opt (o : option str) : bool :=
match o with None => false | Some s => truthy s end.

(** [str.isspace()] on one code point (CPython's [_PyUnicode_IsWhitespace]). *)
Definition is_space (c : char) : bool :=
((0x09 <=? c) && (c <=? 0x0D)) || ((0x1C <=? c) && (c <=? 0x20))
|| (c =? 0x85) || (c =? 0xA0) || (c =? 0x1680)
|| ((0x2000 <=? c) && (c <=? 0x200A))
|| (c =? 0x2028) || (c =? 0x2029) || (c =? 0x202F) || (c =? 0x205F)
|| (c =? 0x3000).

Fixpoint lstrip (s : str) : str :=
match s with
| [] => []
| c :: t => if is_space c then lstrip t else s
end.

Definition rstrip (s : str) : str := reverse (lstrip (reverse s)).

(** [s.strip()] *)
Definition strip (s : str) : str := rstrip (lstrip s).

(** [sep.join(parts)] *)
Fixpoint join (sep : str) (parts : list str) : str :=
match parts with
| [] => []
| [p] => p
| p :: rest => p ++ sep ++ join sep rest
end.

(** [s[:stop]] for a non-negative [stop]. *)
Definition slice_to (stop : N) (s : str) : str := take (N.to_nat stop) s.

(** [needle in hay] *)
Definition contains (needle hay : str) : Prop :=
exists pre post, hay = pre ++ needle ++ post.

(** [s.startswith(p)] *)
Definition startswith (p s : str) : Prop := exists rest, s = p ++ rest.

(** The two tests as Python computes them. *)
Fixpoint startswith_b (p s : str) : bool :=
  match p, s with
  | [], _ => true
  | _ :: _, [] => false
  | c :: p', d :: s' => (c =? d) && startswith_b p' s'
  end.

Fixpoint str_in (needle hay : str) : bool :=
  startswith_b needle hay
  || match hay with
     | [] => false
     | _ :: hay' => str_in needle hay'
     end.

(** *** UTF-8 *)

Definition is_cont (b : N) : bool := (0x80 <=? b) && (b <=? 0xBF).
Definition low6 (b : N) : N := N.land b 0x3F.

(** [b.decode("utf-8")] with the default [errors="strict"]: [None] is
  [UnicodeDecodeError].  Overlong forms, surrogates and code points above
  U+10FFFF are rejected; a leading U+FEFF is kept. *)
Fixpoint utf8_decode (bs : bytes) : option str :=
match bs with
| [] => Some []
| x0 :: t0 =>
  let b0 := Byte.to_N x0 in
  if b0 <? 0x80 then cons b0 <$> utf8_decode t0
  else match t0 with
  | [] => None
  | x1 :: t1 =>
    let b1 := Byte.to_N x1 in
    if (0xC2 <=? b0) && (b0 <=? 0xDF) then
      if is_cont b1
      then cons (N.shiftl (N.land b0 0x1F) 6 + low6 b1) <$> utf8_decode t1
      else None
    else match t1 with
    | [] => None
    | x2 :: t2 =>
      let b2 := Byte.to_N x2 in
      if (0xE0 <=? b0) && (b0 <=? 0xEF) then
        if ((if b0 =? 0xE0 then 0xA0 else 0x80) <=? b1)
           && (b1 <=? (if b0 =? 0xED then 0x9F else 0xBF))
           && is_cont b2
        then cons (N.shiftl (N.land b0 0x0F) 12 + N.shiftl (low6 b1) 6
                   + low6 b2) <$> utf8_decode t2
        else None
      else match t2 with
      | [] => None
      | x3 :: t3 =>
        let b3 := Byte.to_N x3 in
        if (0xF0 <=? b0) && (b0 <=? 0xF4) then
          if ((if b0 =? 0xF0 then 0x90 else 0x80) <=? b1)
             && (b1 <=? (if b0 =? 0xF4 then 0x8F else 0xBF))
             && is_cont b2 && is_cont b3
          then cons (N.shiftl (N.land b0 0x07) 18 + N.shiftl (low6 b1) 12
                     + N.shiftl (low6 b2) 6 + low6 b3) <$> utf8_decode t3
          else None
        else None
      end
    end
  end
end.

(** The line feed, written [\n] in the source's literals. *)
Definition NL : str := [10].

(** A string literal of the source file (the file is UTF-8). *)
Definition lit (s : string) : str :=
default [] (utf8_decode (list_byte_of_string s)).

End Py.

Import Py.

Notation "'py' s" := (lit s%string) (at level 1, s at level 0, only parsing).
Arguments lit : simpl never.

(** ** Exceptions

    An exception is identified with [str(e)], the only thing the handlers
    read from it. *)

Record exn := Exception { exn_str : str }.

Inductive result (A : Type) : Type :=
| Ret (a : A)
| Raise (e : exn).
Arguments Ret {A} a.
Arguments Raise {A} e.

#[export] Instance result_ret : MRet result := fun A a => Ret a.
#[export] Instance result_bind : MBind result := fun A B k r =>
  match r with Ret a => k a | Raise e => Raise e end.

(** ** Document readers *)

(** What the parsing libraries hand to the readers. *)
Record Paragraph := { para_text : str }.
Record Page := { extract_text : option str }.
Record Shape := { shape_text : option str }.
Record Slide := { shapes : list Shape }.
Record UploadedFile := { file_name : str; file_read : bytes }.

Inductive file :=
| Path (p : str)
| Upload (u : UploadedFile).

Section Readers.

(** [docx.Document(file).paragraphs], [pdfplumber.open(file).pages] and
    [pptx.Presentation(file).slides]; each may raise on a file it cannot
    open. *)
Variable Document : file -> result (list Paragraph).
Variable pdfplumber_open : file -> result (list Page).
Variable Presentation : file -> result (list Slide).

Definition read_docx (f : file) : result str :=
  paragraphs ← Document f;
  mret (join NL (map (fun para => strip (para_text para))
                     (filter (fun para => truthy (strip (para_text para)))
                             paragraphs))).

Definition read_pdf (f : file) : result str :=
  pages ← pdfplumber_open f;
  mret (join NL (omap (fun page =>
                         match extract_text page with
                         | Some t => if truthy t then Some t else None
                         | None => None
                         end) pages)).

Definition read_pptx (f : file) : result str :=
  slides ← Presentation f;
  let texts :=
    foldl (fun texts slide =>
             foldl (fun texts shape =>
                      match shape_text shape with
                      | Some t => texts ++ [strip t]
                      | None => texts
                      end) texts (shapes slide)) [] slides in
  mret (join NL texts).

(** [None]: [UnicodeDecodeError]. *)
Definition read_txt (f : UploadedFile) : option str :=
  utf8_decode (file_read f).

End Readers.

(** ** Web scraper *)

Section Scraper.

(** [requests] and [bs4]: every call of the [try] body may raise. *)
Variables Response Soup : Type.
Variable requests_get : str -> N -> result Response.
Variable response_text : Response -> result str.
Variable BeautifulSoup : str -> str -> result Soup.
(** [for tag in soup(names): tag.decompose()] *)
Variable decompose_all : Soup -> list str -> result Soup.
Variable get_text : Soup -> str -> bool -> result str.

(** The body of the [try]. *)
Definition scrape_body (url : str) : result str :=
  response ← requests_get url 10%N;
  markup ← response_text response;
  soup ← BeautifulSoup markup py"html.parser";
  soup ← decompose_all soup [py"script"; py"style"; py"noscript"];
  get_text soup NL true.

Definition scrape_website (url : str) : result str :=
  match scrape_body url with
  | Ret text => Ret text
  | Raise e => Ret (py"Error scraping website: " ++ exn_str e)
  end.

End Scraper.

(** ** Prompt templates *)

Definition default_prompts : gmap str str :=
  {[ py"LinkedIn" := py"🔗 LinkedIn Message Prompt:
You are a senior B2B sales strategist. Write a short, human, personalized LinkedIn message. Make it relevant, clear, and rooted in uploaded product content. No buzzwords or filler. Max 70 words.";
     py"WhatsApp" := py"💬 WhatsApp Message Prompt:
Write a casual yet professional WhatsApp message introducing a B2B SaaS product. Keep it brief (max 50 words), friendly, and based only on uploaded content. Don’t use emojis or sales jargon.";
     py"Email" := py"✉️ Email Prompt:
Craft a short outbound B2B email introducing a product. Include a strong opener, clear value prop, 2–3 features, and a soft CTA. Stay under 140 words. Use uploaded materials only." ]}.

Definition filename_map : gmap str str :=
  {[ py"LinkedIn" := py"linkdln.docx";
     py"WhatsApp" := py"whatsapp.docx";
     py"Email" := py"email.docx" ]}.

Section Templates.

Variable Document : file -> result (list Paragraph).
Variable os_path_exists : str -> bool.

Definition load_sales_prompt (platform : str) : result str :=
  let file_path := default py"" (filename_map !! platform) in
  if truthy file_path && os_path_exists file_path
  then read_docx Document (Path file_path)
  else mret (default py"Message format not found."
                     (default_prompts !! platform)).

End Templates.

(** ** Prompt assembly *)

(** The two options of the "Select Message Type" box. *)
Inductive MessageType := Generic | Personalized.

Definition is_generic (m : MessageType) : bool :=
  match m with Generic => true | Personalized => false end.
Definition is_personalized (m : MessageType) : bool :=
  match m with Generic => false | Personalized => true end.

(** The variables the generate handler reads.  [custom_prompt] is [""] and
    the three personalization fields are not read when the type is
    [Generic]. *)
Record Form := {
  platform : str;
  message_type : MessageType;
  user_content : str;
  custom_prompt : str;
  recipient_name : str;
  company_name : str;
  job_title : str
}.

(** The two checks at the head of the generate handler: the message of the
    [st.error] that rejects the click, or [None] when the [else] runs. *)
Definition validation_error (f : Form) : option str :=
  if negb (truthy (strip (user_content f)))
     && negb (truthy (strip (custom_prompt f)))
  then Some py"❗ Please upload a document or enter a custom prompt before generating the message."
  else if is_personalized (message_type f)
          && (negb (truthy (strip (recipient_name f)))
              || negb (truthy (strip (company_name f))))
  then Some py"❗ Please fill in recipient name and company name for a personalized message."
  else None.

(** The branch of the [if]/[elif]/[else] that builds [final_prompt]. *)
Inductive Branch := GenericBranch | CustomBranch | StructuredBranch.

Definition select_branch (f : Form) : Branch :=
  if is_generic (message_type f) then GenericBranch
  else if truthy (custom_prompt f) then CustomBranch
  else StructuredBranch.

Definition generic_prompt (prompt_template : str) (f : Form) : str :=
  (prompt_template ++ NL ++ NL)
  ++ (py"Generate a **generic " ++ platform f
      ++ py" message** using this content:" ++ NL ++ NL
      ++ slice_to 10000 (user_content f)).

Definition custom_branch_prompt (f : Form) : str :=
  custom_prompt f ++ NL ++ NL
  ++ py"(Here is some background info to help craft the " ++ platform f
  ++ py" message:)" ++ NL ++ NL ++ slice_to 10000 (user_content f).

Definition structured_prompt (prompt_template : str) (f : Form) : str :=
  (prompt_template ++ NL ++ NL)
  ++ (py"Generate a **personalized " ++ platform f ++ py" message** for:"
      ++ NL)
  ++ (py"Name: " ++ recipient_name f ++ NL)
  ++ (py"Company: " ++ company_name f ++ NL)
  ++ (py"Job Title: " ++ job_title f ++ NL ++ NL)
  ++ (py"Background:" ++ NL ++ slice_to 10000 (user_content f)).

Definition final_prompt (prompt_template : str) (f : Form) : str :=
  match select_branch f with
  | GenericBranch => generic_prompt prompt_template f
  | CustomBranch => custom_branch_prompt f
  | StructuredBranch => structured_prompt prompt_template f
  end.

(** ** Session state and the page script *)

(** [st.session_state]: [None] is a key that was never written. *)
Record Session := {
  generated_message : option str;
  edited_message : option str;
  show_edit : option bool
}.

(** What one run of the script shows, and what it sends to the model. *)
Inductive event :=
| st_error (msg : str)
| st_success (msg : str)
| st_warning (msg : str)
| st_subheader (msg : str)
| st_write (msg : str)
| generate_content (prompt : str).

Record World := { session_state : Session; shown : list event }.

(** A run either reaches the end of the script or stops at an uncaught
    exception; the session keeps what was written until then. *)
Inductive outcome (A : Type) : Type :=
| Done (a : A) (w : World)
| Crash (e : exn) (w : World).
Arguments Done {A} a w.
Arguments Crash {A} e w.

Definition script (A : Type) : Type := World -> outcome A.

#[export] Instance script_ret : MRet script := fun A a w => Done a w.
#[export] Instance script_bind : MBind script := fun A B k m w =>
  match m w with
  | Done a w' => k a w'
  | Crash e w' => Crash e w'
  end.

Definition final_world {A} (o : outcome A) : World :=
  match o with Done _ w => w | Crash _ w => w end.

Definition lift {A} (r : result A) : script A := fun w =>
  match r with Ret a => Done a w | Raise e => Crash e w end.

(** [try: body except Exception as e: handler(e)] *)
Definition try_except {A} (body : script A) (handler : exn -> script A)
  : script A := fun w =>
  match body w with
  | Done a w' => Done a w'
  | Crash e w' => handler e w'
  end.

Definition emit (ev : event) : script unit := fun w =>
  Done tt {| session_state := session_state w; shown := shown w ++ [ev] |}.

Definition get_session : script Session := fun w => Done (session_state w) w.

Definition put_session (s : Session) : script unit := fun w =>
  Done tt {| session_state := s; shown := shown w |}.

Definition set_generated_message (v : str) : script unit :=
  s ← get_session;
  put_session {| generated_message := Some v;
                 edited_message := edited_message s;
                 show_edit := show_edit s |}.

Definition set_edited_message (v : str) : script unit :=
  s ← get_session;
  put_session {| generated_message := generated_message s;
                 edited_message := Some v;
                 show_edit := show_edit s |}.

Definition set_show_edit (v : bool) : script unit :=
  s ← get_session;
  put_session {| generated_message := generated_message s;
                 edited_message := edited_message s;
                 show_edit := Some v |}.

(** The prompts sent to the model during a run, in order. *)
Definition model_calls (evs : list event) : list str :=
  omap (fun ev => match ev with generate_content p => Some p | _ => None end)
       evs.

(** The messages of [st.error] during a run, in order. *)
Definition errors_shown (evs : list event) : list str :=
  omap (fun ev => match ev with st_error m => Some m | _ => None end) evs.

Inductive Click := NoClick | ClickGenerate | ClickEdit.

(** The widget values of one run of the script. *)
Record Widgets := {
  form : Form;
  edit_instruction : str;
  clicked : Click
}.

Definition edit_prompt (platform edit_instruction generated : str) : str :=
  (py"Please revise the following " ++ platform
   ++ py" message based on this instruction:" ++ NL)
  ++ (strip edit_instruction ++ NL ++ NL)
  ++ (py"Original Message:" ++ NL ++ generated).

Section Page.

Variable Document : file -> result (list Paragraph).
Variable os_path_exists : str -> bool.

(** [model.generate_content(prompt).text] as the service answers it
    during this run. *)
Variable model : str -> result str.

Definition model_generate_content (prompt : str) : script str :=
  emit (generate_content prompt);; lift (model prompt).

Definition generate_button (f : Form) : script unit :=
  match validation_error f with
  | Some msg => emit (st_error msg)
  | None =>
    prompt_template ← lift (load_sales_prompt Document os_path_exists
                                              (platform f));
    let final_prompt := final_prompt prompt_template f in
    try_except
      (response_text ← model_generate_content final_prompt;
       set_generated_message response_text;;
       set_edited_message py"";;
       set_show_edit true;;
       emit (st_success (py"✅ " ++ platform f ++ py" Message Generated!")))
      (fun e =>
         emit (st_error (py"Generation failed: " ++ exn_str e));;
         set_generated_message py"")
  end.

Definition edit_button (platform edit_instruction : str) : script unit :=
  if truthy (strip edit_instruction) then
    s ← get_session;
    let edit_prompt :=
      edit_prompt platform edit_instruction
                  (default py"" (generated_message s)) in
    try_except
      (edit_response_text ← model_generate_content edit_prompt;
       set_edited_message edit_response_text;;
       emit (st_success py"✅ Edited Message Ready"))
      (fun e => emit (st_error (py"Editing failed: " ++ exn_str e)))
  else emit (st_warning py"Please provide some instructions before editing.").

(** One run of the script from the generate button down. *)
Definition page (ui : Widgets) : script unit :=
  (match clicked ui with
   | ClickGenerate => generate_button (form ui)
   | _ => mret tt
   end);;
  s ← get_session;
  (if truthy_opt (generated_message s) then
     emit (st_subheader (py"📨 Your " ++ platform (form ui) ++ py" Message"));;
     emit (st_write (default py"" (generated_message s)));;
     if default false (show_edit s) then
       emit (st_subheader py"✏️ Refine the Message");;
       match clicked ui with
       | ClickEdit => edit_button (platform (form ui)) (edit_instruction ui)
       | _ => mret tt
       end
     else mret tt
   else mret tt);;
  s ← get_session;
  if truthy_opt (edited_message s) then
    emit (st_subheader py"✅ Refined Message");;
    emit (st_write (default py"" (edited_message s)))
  else mret tt.

(** A run starts with an empty page. *)
Definition rerun (ui : Widgets) (s : Session) : outcome unit :=
  page ui {| session_state := s; shown := [] |}.

End Page.

(** ** Runs of several interactions *)

(** One interaction: what the widgets hold, and how the model answers
    during it. *)
Record Step := { step_model : str -> result str; step_ui : Widgets }.

Definition initial_session : Session :=
  {| generated_message := None; edited_message := None; show_edit := None |}.

Section Runs.

Variable Document : file -> result (list Paragraph).
Variable os_path_exists : str -> bool.

Definition step (s : Session) (st : Step) : Session :=
  session_state
    (final_world (rerun Document os_path_exists (step_model st)
                        (step_ui st) s)).

Definition run (steps : list Step) (s : Session) : Session :=
  foldl step s steps.

(** [st] is an edit click that sends the revision prompt built from [g]
    and gets [r] back. *)
Definition revises (st : Step) (g r : str) : Prop :=
  clicked (step_ui st) = ClickEdit
  /\ step_model st (edit_prompt (platform (form (step_ui st)))
                                (edit_instruction (step_ui st)) g) = Ret r.

End Runs.

(** ** The head of the script: API key, upload and input fields *)

Section ApiKey.

(** [os.getenv] once [load_dotenv()] has run, and [st.secrets]. *)
Variable os_getenv : str -> option str.
Variable st_secrets : gmap str (gmap str str).

(** [os.getenv("GEMINI_API_KEY") or st.secrets["gemini"]["api_key"]];
    [None] is the [KeyError] of a missing secret. *)
Definition api_key : option str :=
  let env := os_getenv py"GEMINI_API_KEY" in
  if truthy_opt env then env
  else gemini ← st_secrets !! py"gemini"; gemini !! py"api_key".

End ApiKey.

(** [s.split(sep)] for a separator of one character. *)
Fixpoint split (sep : char) (s : str) : list str :=
  match s with
  | [] => [[]]
  | c :: t =>
    if (c =? sep)%N then [] :: split sep t
    else match split sep t with
         | part :: parts => (c :: part) :: parts
         | [] => [[c]]
         end
  end.

(** [parts[-1]] *)
Definition item_last (parts : list str) : result str :=
  match last parts with
  | Some part => Ret part
  | None => Raise (Exception py"list index out of range")
  end.

(** The values of the widgets above the generate button. *)
Record Inputs := {
  platform_box : str;
  message_type_box : MessageType;
  uploaded_file : option UploadedFile;
  prompt_area : str;
  recipient_input : str;
  company_input : str;
  title_input : str;
  edit_area : str;
  button : Click
}.

Section App.

Variable Document : file -> result (list Paragraph).
Variable pdfplumber_open : file -> result (list Page).
Variable Presentation : file -> result (list Slide).
Variable os_path_exists : str -> bool.
Variable model : str -> result str.
(** The exception [bytes.decode] raises on these bytes. *)
Variable UnicodeDecodeError : bytes -> exn.

(** The [if uploaded_file:] block; its value is [user_content].  The
    file is what the uploader of line 88 returned: the uploader itself
    turns away a name that does not end in one of its four types. *)
Definition upload (uploaded_file : option UploadedFile) : script str :=
  match uploaded_file with
  | None => mret py""
  | Some u =>
    ext ← lift (item_last (split 46 (file_name u)));
    if bool_decide (ext = py"docx") then lift (read_docx Document (Upload u))
    else if bool_decide (ext = py"pdf")
    then lift (read_pdf pdfplumber_open (Upload u))
    else if bool_decide (ext = py"pptx")
    then lift (read_pptx Presentation (Upload u))
    else if bool_decide (ext = py"txt") then
      match read_txt u with
      | Some text => mret text
      | None => lift (Raise (UnicodeDecodeError (file_read u)))
      end
    else emit (st_error py"Unsupported file type.");; mret py""
  end.

(** The form the handlers read, from what the head of the script set. *)
Definition form_of (inp : Inputs) (user_content custom_prompt : str) : Form :=
  {| platform := platform_box inp;
     message_type := message_type_box inp;
     user_content := user_content;
     custom_prompt := custom_prompt;
     recipient_name := recipient_input inp;
     company_name := company_input inp;
     job_title := title_input inp |}.

(** The whole script, from the two columns down.  The page title and the
    input widgets themselves leave no trace in the log. *)
Definition app (inp : Inputs) : script unit :=
  emit (st_subheader py"📁 Upload a Document");;
  user_content ← upload (uploaded_file inp);
  custom_prompt ←
    (if is_personalized (message_type_box inp) then
       emit (st_subheader py"✍️ Write Your Prompt");;
       mret (prompt_area inp)
     else mret py"");
  (if is_personalized (message_type_box inp)
   then emit (st_subheader py"👤 Personalization Fields")
   else mret tt);;
  page Document os_path_exists model
       {| form := form_of inp user_content custom_prompt;
          edit_instruction := edit_area inp;
          clicked := button inp |}.

Definition app_run (inp : Inputs) (s : Session) : outcome unit :=
  app inp {| session_state := s; shown := [] |}.

End App.

(** ** UTF-8 encoding, for the round trip of [read_txt] *)

Definition byte_of (n : N) : byte := default x00 (Byte.of_N n).

(** A code point that text can hold and UTF-8 can encode: not a
    surrogate, at most U+10FFFF. *)
Definition is_scalar (c : char) : bool :=
  ((c <? 0xD800) || (0xDFFF <? c))%N && (c <? 0x110000)%N.

(** [chr(c).encode("utf-8")] *)
Definition utf8_encode_char (c : char) : bytes :=
  if (c <? 0x80)%N then [byte_of c]
  else if (c <? 0x800)%N then
    [byte_of (0xC0 + c / 64); byte_of (0x80 + c mod 64)]
  else if (c <? 0x10000)%N then
    [byte_of (0xE0 + c / 4096); byte_of (0x80 + (c / 64) mod 64);
     byte_of (0x80 + c mod 64)]
  else
    [byte_of (0xF0 + c / 262144); byte_of (0x80 + (c / 4096) mod 64);
     byte_of (0x80 + (c / 64) mod 64); byte_of (0x80 + c mod 64)].

(** [s.encode("utf-8")] *)
Definition utf8_encode (s : str) : bytes := c ← s; utf8_encode_char c.

(** ** Auxiliary definitions for the statements *)

(** [len(s)] *)
Definition len (s : str) : N := N.of_nat (length s).

Definition set_user_content (v : str) (f : Form) : Form :=
  {| platform := platform f; message_type := message_type f;
     user_content := v; custom_prompt := custom_prompt f;
     recipient_name := recipient_name f; company_name := company_name f;
     job_title := job_title f |}.

Definition set_custom_prompt (v : str) (f : Form) : Form :=
  {| platform := platform f; message_type := message_type f;
     user_content := user_content f; custom_prompt := v;
     recipient_name := recipient_name f; company_name := company_name f;
     job_title := job_title f |}.

Definition set_names (recipient company title : str) (f : Form) : Form :=
  {| platform := platform f; message_type := message_type f;
     user_content := user_content f; custom_prompt := custom_prompt f;
     recipient_name := recipient; company_name := company;
     job_title := title |}.

Definition set_edited (v : option str) (s : Session) : Session :=
  {| generated_message := generated_message s; edited_message := v;
     show_edit := show_edit s |}.

(** The options of the "Choose Message Platform" box. *)
Definition platforms : list str := [py"LinkedIn"; py"WhatsApp"; py"Email"].

(** The text units each reader keeps, by format. *)
Definition docx_units (paragraphs : list Paragraph) : list str :=
  filter (fun t => t <> []) (map (fun para => strip (para_text para))
                                 paragraphs).

Definition pdf_units (pages : list Page) : list str :=
  filter (fun t => t <> []) (omap extract_text pages).

Definition pptx_units (slides : list Slide) : list str :=
  slide ← slides; omap (fun shape => strip <$> shape_text shape)
                       (shapes slide).

(** The units of a docx when the paragraph texts are kept as they are and
    only the test for emptiness trims. *)
Definition docx_units_untrimmed (paragraphs : list Paragraph) : list str :=
  map para_text (filter (fun para => strip (para_text para) <> [])
                        paragraphs).

(** The world after more events, or with another session. *)
Definition show (evs : list event) (w : World) : World :=
  {| session_state := session_state w; shown := shown w ++ evs |}.

Definition with_session (s : Session) (w : World) : World :=
  {| session_state := s; shown := shown w |}.

(** What the lower part of the page shows for a session. *)
Definition display_generated (platform : str) (s : Session) : list event :=
  if truthy_opt (generated_message s) then
    [st_subheader (py"📨 Your " ++ platform ++ py" Message");
     st_write (default py"" (generated_message s))]
    ++ (if default false (show_edit s)
        then [st_subheader py"✏️ Refine the Message"] else [])
  else [].

Definition display_edited (s : Session) : list event :=
  if truthy_opt (edited_message s) then
    [st_subheader py"✅ Refined Message";
     st_write (default py"" (edited_message s))]
  else [].

(** The edit button is on the page. *)
Definition edit_offered (s : Session) : bool :=
  truthy_opt (generated_message s) && default false (show_edit s).

(** A run of the script starts from the stored session and a blank page. *)
Definition fresh (s : Session) : World := {| session_state := s; shown := [] |}.

(** The outcome of a script with [pre] shown before it. *)
Definition prefix_log {A} (pre : list event) (o : outcome A) : outcome A :=
  match o with
  | Done a w =>
    Done a {| session_state := session_state w; shown := pre ++ shown w |}
  | Crash e w =>
    Crash e {| session_state := session_state w; shown := pre ++ shown w |}
  end.

(** A script that only adds to the page: what it does on a page that
    already shows something is what it does on a blank page, after it. *)
Definition appends_only {A} (m : script A) : Prop :=
  forall w, m w = prefix_log (shown w) (m (fresh (session_state w))).

(** The texts of [st.write] during a run, in order. *)
Definition writes (evs : list event) : list str :=
  omap (fun ev => match ev with st_write m => Some m | _ => None end) evs.

(** The messages of [st.warning] during a run, in order. *)
Definition warnings_shown (evs : list event) : list str :=
  omap (fun ev => match ev with st_warning m => Some m | _ => None end) evs.

(** The slots that hold a non-empty message, generated first. *)
Definition stored_messages (s : Session) : list str :=
  filter (fun m => m <> [])
         (default py"" (generated_message s)
          :: default py"" (edited_message s) :: []).

(** What the head of the script hands to the handlers. *)
Definition custom_prompt_of (inp : Inputs) : str :=
  if is_personalized (message_type_box inp) then prompt_area inp else py"".

Definition widgets_of (inp : Inputs) (user_content : str) : Widgets :=
  {| form := form_of inp user_content (custom_prompt_of inp);
     edit_instruction := edit_area inp;
     clicked := button inp |}.

(** What the head of the script shows, [evs] being what the upload block
    shows. *)
Definition head_shown (inp : Inputs) (evs : list event) : list event :=
  [st_subheader py"📁 Upload a Document"] ++ evs
  ++ (if is_personalized (message_type_box inp)
      then [st_subheader py"✍️ Write Your Prompt";
            st_subheader py"👤 Personalization Fields"]
      else []).

Definition set_personal_inputs (prompt recipient company title : str)
    (inp : Inputs) : Inputs :=
  {| platform_box := platform_box inp;
     message_type_box := message_type_box inp;
     uploaded_file := uploaded_file inp;
     prompt_area := prompt;
     recipient_input := recipient;
     company_input := company;
     title_input := title;
     edit_area := edit_area inp;
     button := button inp |}.

Definition without_file (inp : Inputs) : Inputs :=
  {| platform_box := platform_box inp;
     message_type_box := message_type_box inp;
     uploaded_file := None;
     prompt_area := prompt_area inp;
     recipient_input := recipient_input inp;
     company_input := company_input inp;
     title_input := title_input inp;
     edit_area := edit_area inp;
     button := button inp |}.

Definition set_edit_instruction (v : str) (ui : Widgets) : Widgets :=
  {| form := form ui; edit_instruction := v; clicked := clicked ui |}.

(** Lower case of the letters A to Z: all of [str.lower] that matters
    against the four types of the uploader, which are lower-case ASCII. *)
Definition ascii_lower (c : char) : char :=
  if ((65 <=? c) && (c <=? 90))%N then (c + 32)%N else c.

(** [s.endswith(suffix)] *)
Definition endswith_b (suffix s : str) : bool :=
  startswith_b (reverse suffix) (reverse s).

(** [type=["docx", "pdf", "pptx", "txt"]] of the uploader, line 88. *)
Definition uploader_types : list str :=
  [py"docx"; py"pdf"; py"pptx"; py"txt"].

(** The file names the uploader of line 88 lets through with these
    types: those that end, letter case aside, in a dot and one of the
    types.  The script gets no other file from it. *)
Definition uploader_accepts (name : str) : bool :=
  existsb (fun t => endswith_b (46%N :: t) (map ascii_lower name))
          uploader_types.

(** The session invariant of the page. *)
Definition well_formed (s : Session) : Prop :=
  (show_edit s = None \/ show_edit s = Some true)
  /\ (edited_message s <> None -> show_edit s = Some true)
  /\ (show_edit s = Some true -> generated_message s <> None).

(** ** Sample inputs *)

Module Sample.

(** No override document on disk; opening anything fails. *)
Definition no_file : str -> bool := fun _ => false.
Definition no_document : file -> result (list Paragraph) :=
  fun _ => Raise (Exception py"Package not found").

(** An override document for LinkedIn only. *)
Definition linkedin_override : list Paragraph :=
  [ {| para_text := py"  Be brief. " |}; {| para_text := py"   " |};
    {| para_text := py"Sign as Ana." |} ].
Definition linkedin_file : str -> bool :=
  fun p => bool_decide (p = py"linkdln.docx").
Definition linkedin_document : file -> result (list Paragraph) :=
  fun f => match f with
           | Path p => if bool_decide (p = py"linkdln.docx")
                       then Ret linkedin_override
                       else Raise (Exception py"Package not found")
           | Upload _ => Raise (Exception py"Package not found")
           end.

Definition padded_document : file -> result (list Paragraph) :=
  fun _ => Ret [ {| para_text := py" a " |} ].
Definition two_pages : file -> result (list Page) :=
  fun _ => Ret [ {| extract_text := Some py"p1" |};
                 {| extract_text := None |};
                 {| extract_text := Some py"" |};
                 {| extract_text := Some py" p4" |} ].
Definition two_slides : file -> result (list Slide) :=
  fun _ => Ret [ {| shapes := [ {| shape_text := Some py" title " |};
                                {| shape_text := None |};
                                {| shape_text := Some py"  " |} ] |};
                 {| shapes := [ {| shape_text := Some py"body" |} ] |} ].
Definition report : file :=
  Upload {| file_name := py"report.docx"; file_read := [] |}.

(** The model answers, or is out of quota. *)
Definition model_ok : str -> result str := fun _ => Ret py"Hi Ana!".
Definition model_down : str -> result str :=
  fun _ => Raise (Exception py"429 quota exceeded").

Definition generic_email : Form :=
  {| platform := py"Email"; message_type := Generic;
     user_content := py"We sell analytics software.";
     custom_prompt := py""; recipient_name := py"";
     company_name := py""; job_title := py"" |}.

(** Personalized, with a custom instruction and no recipient. *)
Definition custom_no_names : Form :=
  {| platform := py"LinkedIn"; message_type := Personalized;
     user_content := py"We sell analytics software.";
     custom_prompt := py"Write a warm note to a CMO.";
     recipient_name := py""; company_name := py""; job_title := py"" |}.

Definition custom_named : Form :=
  set_names py"Ana" py"Acme" py"" custom_no_names.

(** Personalized, with a custom instruction of one space. *)
Definition blank_custom : Form :=
  {| platform := py"LinkedIn"; message_type := Personalized;
     user_content := py"We sell analytics software.";
     custom_prompt := py" ";
     recipient_name := py"Ana"; company_name := py"Acme";
     job_title := py"CMO" |}.

Definition blank_custom_no_names : Form :=
  set_names py"" py"" py"" blank_custom.

Definition structured : Form :=
  {| platform := py"WhatsApp"; message_type := Personalized;
     user_content := py"We sell analytics software.";
     custom_prompt := py"";
     recipient_name := py"Ana"; company_name := py"Acme";
     job_title := py"" |}.

(** A session after one generation and one edit. *)
Definition edited_session : Session :=
  {| generated_message := Some py"Hello Ana";
     edited_message := Some py"Hey Ana";
     show_edit := Some true |}.

Definition click_generate (f : Form) : Widgets :=
  {| form := f; edit_instruction := py""; clicked := ClickGenerate |}.
Definition click_edit (f : Form) (instruction : str) : Widgets :=
  {| form := f; edit_instruction := instruction; clicked := ClickEdit |}.

(** A background of 15,000 characters: 10,000 [a] then 5,000 [b]. *)
Definition long_background : str :=
  replicate (N.to_nat 10000) 97%N ++ replicate (N.to_nat 5000) 98%N.

(** A scraper whose fetch times out. *)
Definition get_timeout : str -> N -> result unit :=
  fun _ _ => Raise (Exception py"Read timed out.").
Definition unit_text : unit -> result str := fun _ => Ret py"".
Definition unit_soup : str -> str -> result unit := fun _ _ => Ret tt.
Definition unit_decompose : unit -> list str -> result unit :=
  fun _ _ => Ret tt.
Definition unit_get_text : unit -> str -> bool -> result str :=
  fun _ _ _ => Ret py"".

End Sample.
Example lit_ascii : py"a b" = [97; 32; 98]%N.
Proof. reflexivity. Qed.

Example lit_emoji :
  py"🔗 ’–✉️" = [0x1F517; 32; 0x2019; 0x2013; 0x2709; 0xFE0F]%N.
Proof. reflexivity. Qed.

Example strip_example : strip (py"  hi there " ++ NL) = py"hi there".
Proof. reflexivity. Qed.

Example join_example : join py"," [py"a"; py""; py"b"] = py"a,,b".
Proof. reflexivity. Qed.

(** ** Sample inputs for the whole script *)

Module Demo.

Definition decode_error : bytes -> exn :=
  fun _ => Exception py"'utf-8' codec can't decode bytes".
Definition no_pdf : file -> result (list Page) :=
  fun _ => Raise (Exception py"No /Root object! - Is this really a PDF?").
Definition no_pptx : file -> result (list Slide) :=
  fun _ => Raise (Exception py"Package not found").

Definition notes_txt : UploadedFile :=
  {| file_name := py"notes.txt";
     file_read := list_byte_of_string "We sell analytics software." |}.
Definition broken_txt : UploadedFile :=
  {| file_name := py"notes.txt"; file_read := [x57; xff] |}.
Definition upper_pdf : UploadedFile :=
  {| file_name := py"REPORT.PDF"; file_read := [] |}.
Definition deck_docx : UploadedFile :=
  {| file_name := py"deck.docx"; file_read := [] |}.

(** Generic, Email, with an upload and a click. *)
Definition generic (f : option UploadedFile) (c : Click) : Inputs :=
  {| platform_box := py"Email"; message_type_box := Generic;
     uploaded_file := f; prompt_area := py"";
     recipient_input := py""; company_input := py""; title_input := py"";
     edit_area := py""; button := c |}.

(** Personalized, LinkedIn, no upload, a custom instruction. *)
Definition personalized (c : Click) : Inputs :=
  {| platform_box := py"LinkedIn"; message_type_box := Personalized;
     uploaded_file := None;
     prompt_area := py"Write a warm note to a CMO.";
     recipient_input := py"Ana"; company_input := py"Acme";
     title_input := py"CMO"; edit_area := py" shorter "; button := c |}.

(** Personalized, LinkedIn: the custom instruction quotes the built-in
    LinkedIn template and adds a line. *)
Definition quoted_template : Form :=
  {| platform := py"LinkedIn"; message_type := Personalized;
     user_content := py"We sell analytics software.";
     custom_prompt := default [] (default_prompts !! py"LinkedIn")
                      ++ NL ++ py"Keep it under 80 words.";
     recipient_name := py"Ana"; company_name := py"Acme";
     job_title := py"CMO" |}.

Definition app_generic (model : str -> result str)
    (f : option UploadedFile) (c : Click) (s : Session) : outcome unit :=
  app_run Sample.no_document no_pdf no_pptx Sample.no_file model
          decode_error (generic f c) s.

End Demo.

(** ** Tactics *)

(** Run the script monad on a symbolic world. *)
Ltac run_script :=
  unfold try_except, model_generate_content, set_generated_message,
    set_edited_message, set_show_edit, put_session, get_session, emit, lift,
    mbind, script_bind, mret, script_ret;
  cbn -[default edit_prompt final_prompt].

(** Case analysis on what the page displays. *)
Ltac settle_display :=
  unfold show, with_session, display_generated, display_edited;
  repeat (cbn -[default edit_prompt final_prompt];
          match goal with
          | |- context [truthy_opt ?o] => destruct (truthy_opt o) eqn:?
          | |- context [default false ?o] => destruct (default false o) eqn:?
          end);
  cbn -[default edit_prompt final_prompt];
  rewrite <- ?app_assoc, ?app_nil_r; try reflexivity; try congruence.

(** * Properties *)

(** ** Strings *)

Lemma slice_to_nil (stop : N) : slice_to stop [] = [].
Proof. unfold slice_to. apply take_nil. Qed.

Lemma slice_to_len (stop : N) (s : str) :
  len (slice_to stop s) = N.min stop (len s).
Proof. unfold len, slice_to. rewrite length_take. lia. Qed.

Lemma slice_to_short (stop : N) (s : str) :
  (len s <= stop)%N -> slice_to stop s = s.
Proof. unfold len, slice_to. intros H. apply take_ge. lia. Qed.

Lemma slice_to_lookup (stop : N) (s : str) (i : nat) :
  (N.of_nat i < stop)%N -> slice_to stop s !! i = s !! i.
Proof. unfold slice_to. intros H. apply lookup_take_lt. lia. Qed.

Lemma slice_to_beyond (stop : N) (s : str) (i : nat) :
  (stop <= N.of_nat i)%N -> slice_to stop s !! i = None.
Proof.
  intros H. apply lookup_ge_None. pose proof (slice_to_len stop s) as L.
  unfold len in L. lia.
Qed.

Lemma slice_to_drop (stop : N) (s : str) :
  slice_to stop s ++ drop (N.to_nat stop) s = s.
Proof. unfold slice_to. apply take_drop. Qed.

Lemma contains_app_l (a b c : str) : contains a b -> contains a (b ++ c).
Proof.
  intros (pre & post & ->). exists pre, (post ++ c).
  by rewrite <- !app_assoc.
Qed.

Lemma contains_app_r (a b c : str) : contains a c -> contains a (b ++ c).
Proof.
  intros (pre & post & ->). exists (b ++ pre), post.
  by rewrite <- !app_assoc.
Qed.

Lemma contains_trans (a b c : str) :
  contains a b -> contains b c -> contains a c.
Proof.
  intros (p1 & q1 & ->) (p2 & q2 & ->).
  exists (p2 ++ p1), (q1 ++ q2). by rewrite <- !app_assoc.
Qed.

Lemma contains_refl (a : str) : contains a a.
Proof. exists [], []. by rewrite app_nil_r. Qed.

Create HintDb strings.
#[local] Hint Resolve contains_app_l contains_app_r contains_refl : strings.

Lemma startswith_b_spec (p s : str) :
  startswith_b p s = true <-> startswith p s.
Proof.
  revert s. induction p as [|c p IH]; intros s.
  - split; [intros _; by exists s | reflexivity].
  - destruct s as [|d s]; cbn [startswith_b].
    + split; [discriminate | intros [rest H]; discriminate].
    + rewrite andb_true_iff, N.eqb_eq, IH. split.
      * intros [-> [rest ->]]. by exists rest.
      * intros [rest H]. injection H as -> ->. split; [reflexivity |].
        by exists rest.
Qed.

Lemma str_in_spec (needle hay : str) :
  str_in needle hay = true <-> contains needle hay.
Proof.
  induction hay as [|d hay IH].
  - cbn [str_in]. rewrite orb_false_r, startswith_b_spec. split.
    + intros [rest H]. exists [], rest. exact H.
    + intros (pre & post & H). destruct pre; [by exists post |].
      discriminate.
  - cbn [str_in]. rewrite orb_true_iff, startswith_b_spec, IH. split.
    + intros [[rest H] | (pre & post & H)].
      * exists [], rest. exact H.
      * exists (d :: pre), post. by rewrite H.
    + intros (pre & post & H). destruct pre as [|c pre].
      * left. by exists post.
      * right. injection H as -> ->. by exists pre, post.
Qed.

Lemma str_in_false (needle hay : str) :
  str_in needle hay = false -> ~ contains needle hay.
Proof. intros H C. apply str_in_spec in C. congruence. Qed.

(** ** Prompt assembly *)

Lemma select_branch_set_user_content (v : str) (f : Form) :
  select_branch (set_user_content v f) = select_branch f.
Proof. reflexivity. Qed.

Lemma truthy_true (s : str) : truthy s = true <-> s <> [].
Proof. destruct s; simpl; split; congruence. Qed.

Lemma truthy_false (s : str) : truthy s = false <-> s = [].
Proof. destruct s; simpl; split; congruence. Qed.

Lemma custom_branch_contains_instruction (f : Form) :
  contains (custom_prompt f) (custom_branch_prompt f).
Proof. unfold custom_branch_prompt. auto with strings. Qed.

Lemma custom_branch_contains_background (f : Form) :
  contains (slice_to 10000 (user_content f)) (custom_branch_prompt f).
Proof. unfold custom_branch_prompt. auto 10 with strings. Qed.

(** C4: which of the three prompt shapes is built is decided by the
    message type and the custom instruction alone, and every input falls
    in exactly one of the three cases.  Each shape is written out: the
    generic and the structured one start with the template; the custom
    one is the custom instruction, the sentence in brackets that names
    the platform, and the truncated background, and nothing else.  The
    template is no part of the custom shape, which is the same whatever
    the template is; it contains the instruction and the background, and
    so whatever template text these two hold. *)
Theorem branch_selection (prompt_template : str) (f : Form) :
  (select_branch f = GenericBranch <-> message_type f = Generic)
  /\ (select_branch f = StructuredBranch
      <-> message_type f = Personalized /\ custom_prompt f = [])
  /\ (select_branch f = CustomBranch
      <-> message_type f = Personalized /\ custom_prompt f <> [])
  /\ (message_type f = Generic ->
      final_prompt prompt_template f
      = prompt_template ++ NL ++ NL
        ++ py"Generate a **generic " ++ platform f
        ++ py" message** using this content:" ++ NL ++ NL
        ++ slice_to 10000 (user_content f)
      /\ contains prompt_template (final_prompt prompt_template f))
  /\ (message_type f = Personalized -> custom_prompt f = [] ->
      final_prompt prompt_template f
      = prompt_template ++ NL ++ NL
        ++ py"Generate a **personalized " ++ platform f
        ++ py" message** for:" ++ NL
        ++ py"Name: " ++ recipient_name f ++ NL
        ++ py"Company: " ++ company_name f ++ NL
        ++ py"Job Title: " ++ job_title f ++ NL ++ NL
        ++ py"Background:" ++ NL
        ++ slice_to 10000 (user_content f)
      /\ contains prompt_template (final_prompt prompt_template f))
  /\ (message_type f = Personalized -> custom_prompt f <> [] ->
      final_prompt prompt_template f
      = custom_prompt f ++ NL ++ NL
        ++ py"(Here is some background info to help craft the "
        ++ platform f ++ py" message:)" ++ NL ++ NL
        ++ slice_to 10000 (user_content f)
      /\ contains (custom_prompt f) (final_prompt prompt_template f)
      /\ contains (slice_to 10000 (user_content f))
                  (final_prompt prompt_template f)
      /\ (forall other_template,
            final_prompt other_template f = final_prompt prompt_template f)
      /\ (contains prompt_template (custom_prompt f)
          \/ contains prompt_template (slice_to 10000 (user_content f)) ->
          contains prompt_template (final_prompt prompt_template f))).
Proof.
  unfold final_prompt, select_branch.
  destruct (message_type f) eqn:M; simpl.
  { repeat split; try congruence; try (intros []; congruence);
      try (destruct (truthy (custom_prompt f)); congruence).
    - unfold generic_prompt. by rewrite <- ?app_assoc.
    - unfold generic_prompt. auto with strings. }
  destruct (truthy (custom_prompt f)) eqn:T.
  - apply truthy_true in T.
    repeat split; try congruence; try (intros []; congruence).
    + apply custom_branch_contains_instruction.
    + apply custom_branch_contains_background.
    + intros [Hin | Hin].
      * eapply contains_trans;
          [exact Hin | apply custom_branch_contains_instruction].
      * eapply contains_trans;
          [exact Hin | apply custom_branch_contains_background].
  - apply truthy_false in T.
    repeat split; try congruence; try (intros []; congruence).
    + unfold structured_prompt. by rewrite <- ?app_assoc.
    + unfold structured_prompt. auto with strings.
Qed.

Lemma branch_selection_witness :
  final_prompt py"template" Sample.custom_named
  = custom_branch_prompt Sample.custom_named
  /\ final_prompt py"template" Sample.structured
     = structured_prompt py"template" Sample.structured
  /\ final_prompt py"template" Sample.generic_email
     = generic_prompt py"template" Sample.generic_email.
Proof.
  destruct (branch_selection py"template" Sample.custom_named)
    as (_ & _ & _ & _ & _ & Hc).
  destruct (branch_selection py"template" Sample.structured)
    as (_ & _ & _ & _ & Hs & _).
  destruct (branch_selection py"template" Sample.generic_email)
    as (_ & _ & _ & Hg & _).
  split.
  { destruct Hc as [-> _]; [reflexivity | discriminate |].
    unfold custom_branch_prompt. by rewrite <- ?app_assoc. }
  split.
  { destruct Hs as [-> _]; [reflexivity | reflexivity |].
    unfold structured_prompt. by rewrite <- ?app_assoc. }
  destruct Hg as [-> _]; [reflexivity |].
  unfold generic_prompt. by rewrite <- ?app_assoc.
Defined.

(** A custom instruction that quotes the built-in LinkedIn template: the
    form passes validation, the custom shape is built, and the prompt
    holds the text of the template that [load_sales_prompt] returns for
    the platform. *)
Lemma custom_prompt_can_hold_template :
  message_type Demo.quoted_template = Personalized
  /\ custom_prompt Demo.quoted_template <> []
  /\ validation_error Demo.quoted_template = None
  /\ select_branch Demo.quoted_template = CustomBranch
  /\ load_sales_prompt Sample.no_document Sample.no_file
       (platform Demo.quoted_template)
     = Ret (default [] (default_prompts !! py"LinkedIn"))
  /\ default [] (default_prompts !! py"LinkedIn") <> []
  /\ contains (default [] (default_prompts !! py"LinkedIn"))
              (final_prompt (default [] (default_prompts !! py"LinkedIn"))
                            Demo.quoted_template).
Proof.
  split; [reflexivity |].
  split; [by vm_compute |].
  split; [by vm_compute |].
  split; [by vm_compute |].
  split; [by vm_compute |].
  split; [by vm_compute |].
  apply str_in_spec. vm_compute. reflexivity.
Qed.

(** The custom prompt of the sample holds no built-in template; the
    generic one holds the template of its platform. *)
Example custom_prompt_omits_templates :
  let prompt := final_prompt (default [] (default_prompts !! py"LinkedIn"))
                             Sample.custom_named in
  ~ contains (default [] (default_prompts !! py"LinkedIn")) prompt
  /\ ~ contains (default [] (default_prompts !! py"WhatsApp")) prompt
  /\ ~ contains (default [] (default_prompts !! py"Email")) prompt
  /\ contains (default [] (default_prompts !! py"Email"))
              (final_prompt (default [] (default_prompts !! py"Email"))
                            Sample.generic_email).
Proof.
  cbn zeta. repeat split; try (apply str_in_false; vm_compute; reflexivity).
  apply str_in_spec. vm_compute. reflexivity.
Qed.

Lemma final_prompt_split (prompt_template : str) (f : Form) :
  final_prompt prompt_template f
  = final_prompt prompt_template (set_user_content [] f)
    ++ slice_to 10000 (user_content f).
Proof.
  unfold final_prompt. rewrite select_branch_set_user_content.
  destruct (select_branch f);
    unfold generic_prompt, custom_branch_prompt, structured_prompt;
    cbn [set_user_content platform user_content custom_prompt recipient_name
         company_name job_title];
    rewrite slice_to_nil, ?app_nil_r, <- ?app_assoc; reflexivity.
Qed.

(** C5: each of the three prompt shapes ends with the first 10,000
    characters of the background text and nothing else of it: what
    precedes does not depend on the background, a background of at most
    10,000 characters is embedded whole, and of a longer one exactly the
    characters at positions 0 to 9,999 are embedded, each unchanged. *)
Theorem background_truncated_to_10000 (prompt_template : str) (f : Form) :
  let background := slice_to 10000 (user_content f) in
  (generic_prompt prompt_template f
   = generic_prompt prompt_template (set_user_content [] f) ++ background
   /\ custom_branch_prompt f
      = custom_branch_prompt (set_user_content [] f) ++ background
   /\ structured_prompt prompt_template f
      = structured_prompt prompt_template (set_user_content [] f)
        ++ background
   /\ final_prompt prompt_template f
      = final_prompt prompt_template (set_user_content [] f) ++ background)
  /\ ((len (user_content f) <= 10000)%N -> background = user_content f)
  /\ ((10000 < len (user_content f))%N ->
      len background = 10000%N
      /\ background ++ drop (N.to_nat 10000) (user_content f)
         = user_content f)
  /\ (forall i : nat, (N.of_nat i < 10000)%N ->
        background !! i = user_content f !! i)
  /\ (forall i : nat, (10000 <= N.of_nat i)%N -> background !! i = None).
Proof.
  intros background. subst background. split; [| split; [| split; [| split]]].
  - repeat split; [| | | apply final_prompt_split];
      unfold generic_prompt, custom_branch_prompt, structured_prompt;
      cbn [set_user_content platform user_content custom_prompt recipient_name
           company_name job_title];
      rewrite slice_to_nil, ?app_nil_r, <- ?app_assoc; reflexivity.
  - apply slice_to_short.
  - intros H. split; [rewrite slice_to_len; lia | apply slice_to_drop].
  - intros i. apply slice_to_lookup.
  - intros i. apply slice_to_beyond.
Qed.

Lemma background_truncated_to_10000_witness :
  len Sample.long_background = 15000%N
  /\ len (slice_to 10000 Sample.long_background) = 10000%N
  /\ slice_to 10000 (user_content Sample.generic_email)
     = user_content Sample.generic_email.
Proof.
  pose proof (background_truncated_to_10000 py"template"
                (set_user_content Sample.long_background
                                  Sample.generic_email))
    as (_ & _ & Hlong & _).
  pose proof (background_truncated_to_10000 py"template"
                Sample.generic_email)
    as (_ & Hshort & _).
  assert (L : len Sample.long_background = 15000%N) by (vm_compute; reflexivity).
  split; [exact L |]. split.
  - apply Hlong. cbn [set_user_content user_content]. rewrite L. lia.
  - apply Hshort. vm_compute. discriminate.
Defined.

(** The 15,000-character sample: the prompt ends with its 10,000 [a]s. *)
Example long_background_truncated :
  slice_to 10000 Sample.long_background = replicate (N.to_nat 10000) 97%N.
Proof. vm_compute. reflexivity. Qed.

(** ** Document readers *)

Lemma comprehension_units {A} (text : A -> str) (items : list A) :
  map text (filter (fun x => truthy (text x)) items)
  = filter (fun t => t <> []) (map text items).
Proof.
  induction items as [|x items IH]; [reflexivity |].
  rewrite filter_cons. cbn [map]. rewrite filter_cons.
  destruct (text x) as [|c t] eqn:E; simpl.
  - exact IH.
  - rewrite E, IH. reflexivity.
Qed.

Lemma pages_units (pages : list Page) :
  omap (fun page =>
          match extract_text page with
          | Some t => if truthy t then Some t else None
          | None => None
          end) pages
  = pdf_units pages.
Proof.
  unfold pdf_units.
  induction pages as [|page pages IH]; [reflexivity |].
  cbn [omap list_omap]. destruct (extract_text page) as [[|c t]|]; simpl.
  - rewrite filter_cons. simpl. exact IH.
  - rewrite filter_cons. simpl. by rewrite IH.
  - exact IH.
Qed.

Lemma shapes_loop (texts : list str) (shapes : list Shape) :
  foldl (fun texts shape =>
           match shape_text shape with
           | Some t => texts ++ [strip t]
           | None => texts
           end) texts shapes
  = texts ++ omap (fun shape => strip <$> shape_text shape) shapes.
Proof.
  revert texts. induction shapes as [|shape shapes IH]; intros texts.
  - by rewrite app_nil_r.
  - cbn [foldl omap list_omap]. rewrite IH.
    destruct (shape_text shape); simpl; [| reflexivity].
    by rewrite <- app_assoc.
Qed.

Lemma slides_loop (texts : list str) (slides : list Slide) :
  foldl (fun texts slide =>
           foldl (fun texts shape =>
                    match shape_text shape with
                    | Some t => texts ++ [strip t]
                    | None => texts
                    end) texts (shapes slide)) texts slides
  = texts ++ pptx_units slides.
Proof.
  revert texts. induction slides as [|slide slides IH]; intros texts.
  - by rewrite app_nil_r.
  - cbn [foldl]. rewrite IH, shapes_loop. unfold pptx_units.
    cbn [mbind list_bind]. by rewrite <- app_assoc.
Qed.

Lemma utf8_decode_ascii (bs : bytes) :
  Forall (fun b => (Byte.to_N b < 128)%N) bs ->
  utf8_decode bs = Some (map Byte.to_N bs).
Proof.
  induction 1 as [|b bs Hb _ IH]; [reflexivity |].
  cbn [utf8_decode map]. apply N.ltb_lt in Hb. rewrite Hb, IH. reflexivity.
Qed.

Lemma docx_units_nonempty (paragraphs : list Paragraph) :
  Forall (fun t => t <> []) (docx_units paragraphs).
Proof.
  unfold docx_units. apply Forall_forall. intros t Ht.
  apply list_elem_of_filter in Ht. tauto.
Qed.

Lemma read_docx_units (Document : file -> result (list Paragraph))
    (f : file) (paragraphs : list Paragraph) :
  Document f = Ret paragraphs ->
  read_docx Document f = Ret (join NL (docx_units paragraphs)).
Proof.
  intros H. unfold read_docx. rewrite H. cbn [mbind result_bind].
  rewrite (comprehension_units (fun para => strip (para_text para))).
  reflexivity.
Qed.

(** C6, as the code has it: a docx gives the newline-join of the trimmed
    texts of its paragraphs, in order, without the empty ones; a pdf the
    newline-join of the texts of its pages, in order, without the pages
    that give none; a pptx the newline-join, over the slides in order and
    the shapes of each in order, of the trimmed text of every shape that
    has one, the empty ones kept; a txt the strict UTF-8 decoding of its
    bytes, which for ASCII content is the content itself. *)
Theorem extraction_by_format
    (Document : file -> result (list Paragraph))
    (pdfplumber_open : file -> result (list Page))
    (Presentation : file -> result (list Slide)) (f : file) :
  (forall paragraphs, Document f = Ret paragraphs ->
     read_docx Document f = Ret (join NL (docx_units paragraphs)))
  /\ (forall pages, pdfplumber_open f = Ret pages ->
        read_pdf pdfplumber_open f = Ret (join NL (pdf_units pages)))
  /\ (forall slides, Presentation f = Ret slides ->
        read_pptx Presentation f = Ret (join NL (pptx_units slides)))
  /\ (forall u : UploadedFile,
        read_txt u = utf8_decode (file_read u)
        /\ (Forall (fun b => (Byte.to_N b < 128)%N) (file_read u) ->
            read_txt u = Some (map Byte.to_N (file_read u)))).
Proof.
  repeat split.
  - apply read_docx_units.
  - intros pages H. unfold read_pdf. rewrite H. cbn [mbind result_bind].
    rewrite pages_units. reflexivity.
  - intros slides H. unfold read_pptx. rewrite H. cbn [mbind result_bind].
    rewrite slides_loop. reflexivity.
  - apply utf8_decode_ascii.
Qed.

Lemma extraction_by_format_witness :
  read_docx Sample.linkedin_document (Path py"linkdln.docx")
  = Ret (py"Be brief." ++ NL ++ py"Sign as Ana.")
  /\ read_pdf Sample.two_pages Sample.report = Ret (py"p1" ++ NL ++ py" p4")
  /\ read_pptx Sample.two_slides Sample.report
     = Ret (py"title" ++ NL ++ NL ++ py"body").
Proof.
  destruct (extraction_by_format Sample.linkedin_document Sample.two_pages
              Sample.two_slides (Path py"linkdln.docx")) as (Hd & _).
  destruct (extraction_by_format Sample.linkedin_document Sample.two_pages
              Sample.two_slides Sample.report) as (_ & Hp & Hs & _).
  split; [| split].
  - rewrite (Hd Sample.linkedin_override); reflexivity.
  - rewrite (Hp _ eq_refl). reflexivity.
  - rewrite (Hs _ eq_refl). reflexivity.
Defined.

(** C6 as stated fails for docx: the paragraph texts are joined trimmed,
    not as they stand in the document. *)
Lemma docx_texts_are_joined_trimmed :
  Sample.padded_document Sample.report = Ret [ {| para_text := py" a " |} ]
  /\ read_docx Sample.padded_document Sample.report = Ret py"a"
  /\ join NL (docx_units_untrimmed [ {| para_text := py" a " |} ]) = py" a "
  /\ read_docx Sample.padded_document Sample.report
     <> Ret (join NL (docx_units_untrimmed [ {| para_text := py" a " |} ])).
Proof. repeat split; try reflexivity. vm_compute. discriminate. Qed.

Example read_txt_keeps_whitespace :
  read_txt {| file_name := py"a.txt";
              file_read := list_byte_of_string " caf" ++ [xc3; xa9; x0a] |}
  = Some (py" caf" ++ [233%N; 10%N]).
Proof. reflexivity. Qed.

Example read_txt_rejects_malformed :
  read_txt {| file_name := py"a.txt"; file_read := [x61; xc3] |} = None
  /\ read_txt {| file_name := py"a.txt"; file_read := [xc0; x80] |} = None
  /\ read_txt {| file_name := py"a.txt"; file_read := [xed; xa0; x80] |}
     = None
  /\ read_txt {| file_name := py"a.txt"; file_read := [xf4; x90; x80; x80] |}
     = None
  /\ read_txt {| file_name := py"a.txt"; file_read := [xff] |} = None.
Proof. repeat split. Qed.

(** ** Whitespace *)

Lemma lstrip_keeps (c : char) (s : str) :
  c ∈ s -> is_space c = false -> c ∈ lstrip s.
Proof.
  intros Hin Hc. induction s as [|d s IH]; [by apply elem_of_nil in Hin |].
  cbn [lstrip]. destruct (is_space d) eqn:D; [| exact Hin].
  apply elem_of_cons in Hin as [-> | Hin]; [congruence | auto].
Qed.

Lemma strip_keeps (c : char) (s : str) :
  c ∈ s -> is_space c = false -> c ∈ strip s.
Proof.
  intros Hin Hc. unfold strip, rstrip.
  apply elem_of_reverse, lstrip_keeps; [| exact Hc].
  apply elem_of_reverse, lstrip_keeps; assumption.
Qed.

Lemma strip_truthy (c : char) (s : str) :
  c ∈ s -> is_space c = false -> truthy (strip s) = true.
Proof.
  intros Hin Hc. pose proof (strip_keeps c s Hin Hc) as H.
  destruct (strip s); [by apply elem_of_nil in H | reflexivity].
Qed.

Lemma lstrip_blank (s : str) :
  Forall (fun c => is_space c = true) s -> lstrip s = [].
Proof. induction 1 as [|c s Hc _ IH]; [reflexivity |]. cbn. by rewrite Hc. Qed.

Lemma strip_blank (s : str) :
  Forall (fun c => is_space c = true) s -> strip s = [].
Proof. intros H. unfold strip. by rewrite (lstrip_blank s H). Qed.

(** ** Web scraper *)

Section ScraperFacts.

Variables Response Soup : Type.
Variable requests_get : str -> N -> result Response.
Variable response_text : Response -> result str.
Variable BeautifulSoup : str -> str -> result Soup.
Variable decompose_all : Soup -> list str -> result Soup.
Variable get_text : Soup -> str -> bool -> result str.

#[local] Abbreviation body :=
  (scrape_body Response Soup requests_get response_text BeautifulSoup
               decompose_all get_text).
#[local] Abbreviation scrape :=
  (scrape_website Response Soup requests_get response_text BeautifulSoup
                  decompose_all get_text).

Lemma scrape_website_returns (url : str) :
  exists text, scrape url = Ret text.
Proof. unfold scrape_website. destruct (body url); eauto. Qed.

Lemma fetch_failure (url : str) (e : exn) :
  requests_get url 10%N = Raise e -> body url = Raise e.
Proof. intros H. unfold scrape_body. by rewrite H. Qed.

Lemma parse_failure (url markup : str) (response : Response) (e : exn) :
  requests_get url 10%N = Ret response ->
  response_text response = Ret markup ->
  BeautifulSoup markup py"html.parser" = Raise e ->
  body url = Raise e.
Proof.
  intros H1 H2 H3. unfold scrape_body. rewrite H1. cbn [mbind result_bind].
  rewrite H2. cbn [mbind result_bind]. by rewrite H3.
Qed.

Lemma error_text_not_blank (msg : str) :
  truthy (strip (py"Error scraping website: " ++ msg)) = true.
Proof.
  apply (strip_truthy 69%N); [| reflexivity].
  apply elem_of_app. left. vm_compute. apply list_elem_of_here.
Qed.


End ScraperFacts.


(** ** Prompt templates *)

Lemma filename_map_unknown (platform : str) :
  platform ∉ platforms -> filename_map !! platform = None.
Proof.
  unfold platforms, filename_map. intros H.
  rewrite !not_elem_of_cons in H. destruct H as (H1 & H2 & H3 & _).
  rewrite !lookup_insert_ne by congruence.
  apply lookup_singleton_ne. congruence.
Qed.

Lemma default_prompts_unknown (platform : str) :
  platform ∉ platforms -> default_prompts !! platform = None.
Proof.
  unfold platforms, default_prompts. intros H.
  rewrite !not_elem_of_cons in H. destruct H as (H1 & H2 & H3 & _).
  rewrite !lookup_insert_ne by congruence.
  apply lookup_singleton_ne. congruence.
Qed.

Lemma filename_map_known (platform : str) :
  platform ∈ platforms ->
  exists path, filename_map !! platform = Some path /\ path <> []
               /\ is_Some (default_prompts !! platform).
Proof.
  unfold platforms. rewrite !elem_of_cons, elem_of_nil.
  intros [-> | [-> | [-> | []]]]; eexists; (split; [reflexivity |]);
    (split; [discriminate | by eexists]).
Qed.

Lemma platforms_decide (platform : str) :
  platform ∈ platforms \/ platform ∉ platforms.
Proof. destruct (decide (platform ∈ platforms)); auto. Qed.

(** C9: for a platform with an override document at its fixed path
    ([linkdln.docx], [whatsapp.docx], [email.docx]) the text read from that
    document is the template; without one, the built-in default of the
    platform; for any other platform string the result is
    "Message format not found.", whatever is on disk. *)
Theorem template_resolution
    (Document : file -> result (list Paragraph))
    (os_path_exists : str -> bool) (platform : str) :
  (forall path, filename_map !! platform = Some path ->
     os_path_exists path = true ->
     load_sales_prompt Document os_path_exists platform
     = read_docx Document (Path path)
     /\ forall paragraphs, Document (Path path) = Ret paragraphs ->
          load_sales_prompt Document os_path_exists platform
          = Ret (join NL (docx_units paragraphs)))
  /\ (forall path, filename_map !! platform = Some path ->
        os_path_exists path = false ->
        exists text, default_prompts !! platform = Some text
          /\ load_sales_prompt Document os_path_exists platform = Ret text)
  /\ (platform ∉ platforms ->
      load_sales_prompt Document os_path_exists platform
      = Ret py"Message format not found.")
  /\ (platform ∈ platforms <-> is_Some (filename_map !! platform))
  /\ filename_map !! py"LinkedIn" = Some py"linkdln.docx"
  /\ filename_map !! py"WhatsApp" = Some py"whatsapp.docx"
  /\ filename_map !! py"Email" = Some py"email.docx".
Proof.
  split; [| split; [| split; [| split]]].
  - intros path Hp He.
    assert (Hk : platform ∈ platforms).
    { destruct (platforms_decide platform) as [|Hn]; [done |].
      apply filename_map_unknown in Hn. rewrite Hn in Hp. discriminate. }
    apply filename_map_known in Hk as (path' & Hp' & Hne & _).
    rewrite Hp in Hp'. injection Hp' as <-.
    assert (L : load_sales_prompt Document os_path_exists platform
                = read_docx Document (Path path)).
    { unfold load_sales_prompt. rewrite Hp. cbn [default from_option id].
      apply truthy_true in Hne. by rewrite Hne, He. }
    split; [exact L |]. intros paragraphs Hd. rewrite L.
    by apply read_docx_units.
  - intros path Hp He.
    assert (Hk : platform ∈ platforms).
    { destruct (platforms_decide platform) as [|Hn]; [done |].
      apply filename_map_unknown in Hn. rewrite Hn in Hp. discriminate. }
    apply filename_map_known in Hk as (path' & Hp' & _ & text & Ht).
    exists text. split; [exact Ht |].
    unfold load_sales_prompt. rewrite Hp, Ht. cbn [default from_option id].
    rewrite He, andb_false_r. reflexivity.
  - intros Hn. unfold load_sales_prompt.
    rewrite (filename_map_unknown _ Hn), (default_prompts_unknown _ Hn).
    reflexivity.
  - split.
    + intros Hk. apply filename_map_known in Hk as (path & Hp & _). by eexists.
    + intros [path Hp]. destruct (platforms_decide platform) as [|Hn]; [done |].
      apply filename_map_unknown in Hn. rewrite Hn in Hp. discriminate.
  - repeat split.
Qed.

Lemma template_resolution_witness :
  load_sales_prompt Sample.linkedin_document Sample.linkedin_file
                    py"LinkedIn"
  = Ret (py"Be brief." ++ NL ++ py"Sign as Ana.")
  /\ (exists text, default_prompts !! py"Email" = Some text
        /\ load_sales_prompt Sample.no_document Sample.no_file py"Email"
           = Ret text)
  /\ load_sales_prompt Sample.linkedin_document Sample.linkedin_file
                       py"Telegram"
     = Ret py"Message format not found.".
Proof.
  destruct (template_resolution Sample.linkedin_document
              Sample.linkedin_file py"LinkedIn") as (Ho & _).
  destruct (template_resolution Sample.no_document Sample.no_file py"Email")
    as (_ & Hd & _).
  destruct (template_resolution Sample.linkedin_document
              Sample.linkedin_file py"Telegram") as (_ & _ & Hu & _).
  split; [| split].
  - destruct (Ho py"linkdln.docx" eq_refl eq_refl) as [_ H].
    rewrite (H Sample.linkedin_override eq_refl). reflexivity.
  - apply (Hd py"email.docx"); reflexivity.
  - apply Hu. unfold platforms. rewrite !not_elem_of_cons.
    repeat split; [discriminate .. | apply not_elem_of_nil].
Defined.

Example email_default :
  load_sales_prompt Sample.no_document Sample.no_file py"Email"
  = Ret (py"✉️ Email Prompt:" ++ NL ++ py"Craft a short outbound B2B email introducing a product. Include a strong opener, clear value prop, 2–3 features, and a soft CTA. Stay under 140 words. Use uploaded materials only.").
Proof. reflexivity. Qed.

(** ** The generate and edit handlers *)

Section Handlers.

Variable Document : file -> result (list Paragraph).
Variable os_path_exists : str -> bool.
Variable model : str -> result str.

#[local] Abbreviation generate := (generate_button Document os_path_exists model).
#[local] Abbreviation edit := (edit_button model).
#[local] Abbreviation template := (load_sales_prompt Document os_path_exists).

Lemma generate_rejected (f : Form) (msg : str) (w : World) :
  validation_error f = Some msg ->
  generate f w = Done tt (show [st_error msg] w).
Proof. intros V. unfold generate_button. rewrite V. reflexivity. Qed.

Lemma generate_no_template (f : Form) (e : exn) (w : World) :
  validation_error f = None ->
  template (platform f) = Raise e ->
  generate f w = Crash e w.
Proof.
  intros V L. unfold generate_button. rewrite V.
  run_script. rewrite L. reflexivity.
Qed.

Lemma generate_succeeds (f : Form) (tpl r : str) (w : World) :
  validation_error f = None ->
  template (platform f) = Ret tpl ->
  model (final_prompt tpl f) = Ret r ->
  generate f w
  = Done tt
      (show [generate_content (final_prompt tpl f);
             st_success (py"✅ " ++ platform f ++ py" Message Generated!")]
         (with_session {| generated_message := Some r;
                          edited_message := Some [];
                          show_edit := Some true |} w)).
Proof.
  intros V L M. unfold generate_button. rewrite V.
  run_script. rewrite L. cbn. rewrite M. cbn.
  unfold show, with_session. cbn. rewrite <- app_assoc. reflexivity.
Qed.

Lemma generate_fails (f : Form) (tpl : str) (e : exn) (w : World) :
  validation_error f = None ->
  template (platform f) = Ret tpl ->
  model (final_prompt tpl f) = Raise e ->
  generate f w
  = Done tt
      (show [generate_content (final_prompt tpl f);
             st_error (py"Generation failed: " ++ exn_str e)]
         (with_session {| generated_message := Some [];
                          edited_message := edited_message (session_state w);
                          show_edit := show_edit (session_state w) |} w)).
Proof.
  intros V L M. unfold generate_button. rewrite V.
  run_script. rewrite L. cbn. rewrite M. cbn.
  unfold show, with_session. cbn. rewrite <- app_assoc. reflexivity.
Qed.

Lemma edit_blank (platform instruction : str) (w : World) :
  strip instruction = [] ->
  edit platform instruction w
  = Done tt (show [st_warning py"Please provide some instructions before editing."] w).
Proof. intros B. unfold edit_button. rewrite B. reflexivity. Qed.

Lemma edit_succeeds (platform instruction r : str) (w : World) :
  strip instruction <> [] ->
  model (edit_prompt platform instruction
           (default py"" (generated_message (session_state w)))) = Ret r ->
  edit platform instruction w
  = Done tt
      (show [generate_content
               (edit_prompt platform instruction
                  (default py"" (generated_message (session_state w))));
             st_success py"✅ Edited Message Ready"]
         (with_session (set_edited (Some r) (session_state w)) w)).
Proof.
  intros B M. apply truthy_true in B. unfold edit_button. rewrite B.
  run_script. rewrite M. cbn.
  unfold show, with_session. cbn. rewrite <- app_assoc. reflexivity.
Qed.

Lemma edit_fails (platform instruction : str) (e : exn) (w : World) :
  strip instruction <> [] ->
  model (edit_prompt platform instruction
           (default py"" (generated_message (session_state w)))) = Raise e ->
  edit platform instruction w
  = Done tt
      (show [generate_content
               (edit_prompt platform instruction
                  (default py"" (generated_message (session_state w))));
             st_error (py"Editing failed: " ++ exn_str e)] w).
Proof.
  intros B M. apply truthy_true in B. unfold edit_button. rewrite B.
  run_script. rewrite M. cbn.
  unfold show. cbn. rewrite <- app_assoc. reflexivity.
Qed.

End Handlers.

Section PageFacts.

Variable Document : file -> result (list Paragraph).
Variable os_path_exists : str -> bool.
Variable model : str -> result str.

#[local] Abbreviation generate := (generate_button Document os_path_exists model).
#[local] Abbreviation edit := (edit_button model).
#[local] Abbreviation run_page := (page Document os_path_exists model).

Lemma page_idle (ui : Widgets) (w : World) :
  clicked ui = NoClick ->
  run_page ui w
  = Done tt (show (display_generated (platform (form ui)) (session_state w)
                   ++ display_edited (session_state w)) w).
Proof.
  intros C. unfold page. rewrite C. run_script. settle_display.
  by destruct w.
Qed.

Lemma page_generate (ui : Widgets) (w w1 : World) :
  clicked ui = ClickGenerate ->
  generate (form ui) w = Done tt w1 ->
  run_page ui w
  = Done tt (show (display_generated (platform (form ui)) (session_state w1)
                   ++ display_edited (session_state w1)) w1).
Proof.
  intros C G. unfold page. rewrite C.
  unfold mbind at 1, script_bind at 1. rewrite G.
  run_script. settle_display. by destruct w1.
Qed.

Lemma page_generate_crash (ui : Widgets) (w w1 : World) (e : exn) :
  clicked ui = ClickGenerate ->
  generate (form ui) w = Crash e w1 ->
  run_page ui w = Crash e w1.
Proof.
  intros C G. unfold page. rewrite C.
  unfold mbind at 1, script_bind at 1. rewrite G. reflexivity.
Qed.

Lemma page_edit_hidden (ui : Widgets) (w : World) :
  clicked ui = ClickEdit ->
  edit_offered (session_state w) = false ->
  run_page ui w
  = Done tt (show (display_generated (platform (form ui)) (session_state w)
                   ++ display_edited (session_state w)) w).
Proof.
  intros C H. unfold page. rewrite C. unfold edit_offered in H.
  run_script. settle_display; try discriminate.
  by destruct w.
Qed.

Lemma page_edit (ui : Widgets) (w w1 : World) :
  clicked ui = ClickEdit ->
  edit_offered (session_state w) = true ->
  edit (platform (form ui)) (edit_instruction ui)
       (show (display_generated (platform (form ui)) (session_state w)) w)
  = Done tt w1 ->
  run_page ui w = Done tt (show (display_edited (session_state w1)) w1).
Proof.
  intros C H E. unfold page. rewrite C. unfold edit_offered in H.
  apply andb_true_iff in H as [Hg Hs].
  unfold display_generated, show in E. rewrite Hg, Hs in E.
  run_script. rewrite Hg, Hs. cbn -[default edit_prompt final_prompt].
  rewrite <- !app_assoc. cbn -[default edit_prompt final_prompt] in E |- *.
  rewrite E. settle_display. by destruct w1.
Qed.

#[local] Abbreviation rerun' := (rerun Document os_path_exists model).
#[local] Abbreviation template := (load_sales_prompt Document os_path_exists).

Lemma rerun_idle (ui : Widgets) (s : Session) :
  clicked ui = NoClick ->
  rerun' ui s
  = Done tt (show (display_generated (platform (form ui)) s
                   ++ display_edited s) (fresh s)).
Proof. intros C. apply (page_idle ui (fresh s) C). Qed.

Lemma rerun_rejected (ui : Widgets) (s : Session) (msg : str) :
  clicked ui = ClickGenerate ->
  validation_error (form ui) = Some msg ->
  rerun' ui s
  = Done tt (show ([st_error msg]
                   ++ display_generated (platform (form ui)) s
                   ++ display_edited s) (fresh s)).
Proof.
  intros C V. unfold rerun.
  rewrite (page_generate ui _ _ C (generate_rejected _ _ _ _ _ _ V)).
  unfold show, fresh. cbn. reflexivity.
Qed.

Lemma rerun_no_template (ui : Widgets) (s : Session) (e : exn) :
  clicked ui = ClickGenerate ->
  validation_error (form ui) = None ->
  template (platform (form ui)) = Raise e ->
  rerun' ui s = Crash e (fresh s).
Proof.
  intros C V L. unfold rerun.
  apply (page_generate_crash ui _ _ e C).
  by apply generate_no_template.
Qed.

Lemma rerun_generate_succeeds (ui : Widgets) (s : Session) (tpl r : str) :
  clicked ui = ClickGenerate ->
  validation_error (form ui) = None ->
  template (platform (form ui)) = Ret tpl ->
  model (final_prompt tpl (form ui)) = Ret r ->
  let s' := {| generated_message := Some r; edited_message := Some py"";
               show_edit := Some true |} in
  rerun' ui s
  = Done tt (show ([generate_content (final_prompt tpl (form ui));
                    st_success (py"✅ " ++ platform (form ui)
                                ++ py" Message Generated!")]
                   ++ display_generated (platform (form ui)) s'
                   ++ display_edited s') (fresh s')).
Proof.
  intros C V L M s'. unfold rerun.
  rewrite (page_generate ui _ _ C (generate_succeeds _ _ _ _ _ _ _ V L M)).
  unfold show, fresh, with_session. cbn. reflexivity.
Qed.

Lemma rerun_generate_fails (ui : Widgets) (s : Session) (tpl : str)
    (e : exn) :
  clicked ui = ClickGenerate ->
  validation_error (form ui) = None ->
  template (platform (form ui)) = Ret tpl ->
  model (final_prompt tpl (form ui)) = Raise e ->
  let s' := {| generated_message := Some py"";
               edited_message := edited_message s;
               show_edit := show_edit s |} in
  rerun' ui s
  = Done tt (show ([generate_content (final_prompt tpl (form ui));
                    st_error (py"Generation failed: " ++ exn_str e)]
                   ++ display_edited s') (fresh s')).
Proof.
  intros C V L M s'. unfold rerun.
  rewrite (page_generate ui _ _ C (generate_fails _ _ _ _ _ _ _ V L M)).
  unfold show, fresh, with_session. cbn. reflexivity.
Qed.

Lemma rerun_edit_hidden (ui : Widgets) (s : Session) :
  clicked ui = ClickEdit ->
  edit_offered s = false ->
  rerun' ui s
  = Done tt (show (display_generated (platform (form ui)) s
                   ++ display_edited s) (fresh s)).
Proof. intros C H. apply (page_edit_hidden ui (fresh s) C H). Qed.

Lemma rerun_edit_blank (ui : Widgets) (s : Session) :
  clicked ui = ClickEdit ->
  edit_offered s = true ->
  strip (edit_instruction ui) = [] ->
  rerun' ui s
  = Done tt (show (display_generated (platform (form ui)) s
                   ++ [st_warning py"Please provide some instructions before editing."]
                   ++ display_edited s) (fresh s)).
Proof.
  intros C H B. unfold rerun. fold (fresh s).
  rewrite (page_edit ui (fresh s) _ C H (edit_blank _ _ _ _ B)).
  unfold show, fresh. cbn. rewrite <- !app_assoc. reflexivity.
Qed.

Lemma rerun_edit_succeeds (ui : Widgets) (s : Session) (r : str) :
  clicked ui = ClickEdit ->
  edit_offered s = true ->
  strip (edit_instruction ui) <> [] ->
  let prompt := edit_prompt (platform (form ui)) (edit_instruction ui)
                            (default py"" (generated_message s)) in
  model prompt = Ret r ->
  rerun' ui s
  = Done tt (show (display_generated (platform (form ui)) s
                   ++ [generate_content prompt;
                       st_success py"✅ Edited Message Ready"]
                   ++ display_edited (set_edited (Some r) s))
                  (fresh (set_edited (Some r) s))).
Proof.
  intros C H B prompt M. unfold rerun. fold (fresh s).
  rewrite (page_edit ui (fresh s) _ C H (edit_succeeds _ _ _ _ _ B M)).
  unfold show, fresh, with_session. cbn. rewrite <- !app_assoc. reflexivity.
Qed.

Lemma rerun_edit_fails (ui : Widgets) (s : Session) (e : exn) :
  clicked ui = ClickEdit ->
  edit_offered s = true ->
  strip (edit_instruction ui) <> [] ->
  let prompt := edit_prompt (platform (form ui)) (edit_instruction ui)
                            (default py"" (generated_message s)) in
  model prompt = Raise e ->
  rerun' ui s
  = Done tt (show (display_generated (platform (form ui)) s
                   ++ [generate_content prompt;
                       st_error (py"Editing failed: " ++ exn_str e)]
                   ++ display_edited s) (fresh s)).
Proof.
  intros C H B prompt M. unfold rerun. fold (fresh s).
  rewrite (page_edit ui (fresh s) _ C H (edit_fails _ _ _ _ _ B M)).
  unfold show, fresh. cbn. rewrite <- !app_assoc. reflexivity.
Qed.

End PageFacts.

(** The display part of the page sends nothing to the model and reports no
    error. *)
Lemma model_calls_app (a b : list event) :
  model_calls (a ++ b) = model_calls a ++ model_calls b.
Proof. apply omap_app. Qed.

Lemma errors_shown_app (a b : list event) :
  errors_shown (a ++ b) = errors_shown a ++ errors_shown b.
Proof. apply omap_app. Qed.

Lemma display_generated_quiet (pl : str) (s : Session) :
  model_calls (display_generated pl s) = []
  /\ errors_shown (display_generated pl s) = [].
Proof.
  unfold display_generated.
  destruct (truthy_opt _); [destruct (default false _) |]; by split.
Qed.

Lemma display_edited_quiet (s : Session) :
  model_calls (display_edited s) = [] /\ errors_shown (display_edited s) = [].
Proof. unfold display_edited. destruct (truthy_opt _); by split. Qed.


(** ** Validation *)

Lemma rejected_click_is_inert
    (Document : file -> result (list Paragraph))
    (os_path_exists : str -> bool) (model : str -> result str)
    (ui : Widgets) (s : Session) (msg : str) :
  clicked ui = ClickGenerate ->
  validation_error (form ui) = Some msg ->
  let out := rerun Document os_path_exists model ui s in
  session_state (final_world out) = s
  /\ model_calls (shown (final_world out)) = []
  /\ errors_shown (shown (final_world out)) = [msg].
Proof.
  intros C V out. subst out. rewrite (rerun_rejected _ _ _ _ _ _ C V).
  cbn [final_world show fresh session_state shown]. rewrite app_nil_l.
  rewrite !model_calls_app, !errors_shown_app.
  destruct (display_generated_quiet (platform (form ui)) s) as [-> ->].
  destruct (display_edited_quiet s) as [-> ->]. by repeat split.
Qed.

(** C2, as the code has it: a Personalized generate action needs a
    recipient name and a company name that are not blank whether or not a
    custom instruction is given: without them the click is rejected, no
    prompt is sent and the session is as before; with them, and with a
    background or an instruction, it is accepted.  A Generic generate
    action never needs them. *)
Theorem names_required_when_personalized (f : Form) :
  (message_type f = Personalized ->
   strip (recipient_name f) = [] \/ strip (company_name f) = [] ->
   (exists msg, validation_error f = Some msg)
   /\ forall Document os_path_exists model edit_instruction s,
        let out := rerun Document os_path_exists model
                     {| form := f; edit_instruction := edit_instruction;
                        clicked := ClickGenerate |} s in
        session_state (final_world out) = s
        /\ model_calls (shown (final_world out)) = [])
  /\ (message_type f = Personalized ->
      strip (recipient_name f) <> [] -> strip (company_name f) <> [] ->
      strip (user_content f) <> [] \/ strip (custom_prompt f) <> [] ->
      validation_error f = None)
  /\ (message_type f = Generic ->
      (forall recipient company title,
         validation_error (set_names recipient company title f)
         = validation_error f)
      /\ (strip (user_content f) <> [] \/ strip (custom_prompt f) <> [] ->
          validation_error f = None)).
Proof.
  split; [| split].
  - intros P B.
    assert (V : exists msg, validation_error f = Some msg).
    { unfold validation_error. rewrite P. cbn [is_personalized andb].
      destruct (negb (truthy (strip (user_content f))) && _); [by eexists |].
      destruct B as [-> | ->]; cbn; [by eexists |].
      rewrite orb_true_r. by eexists. }
    split; [exact V |]. destruct V as [msg V].
    intros Document os_path_exists model edit_instruction s out.
    destruct (rejected_click_is_inert Document os_path_exists model
                {| form := f; edit_instruction := edit_instruction;
                   clicked := ClickGenerate |} s msg eq_refl V)
      as (H1 & H2 & _).
    by split.
  - intros P R C B. unfold validation_error.
    apply truthy_true in R, C. rewrite P, R, C. cbn.
    destruct B as [B | B]; apply truthy_true in B; rewrite B; cbn;
      [reflexivity | by rewrite andb_false_r].
  - intros G. split.
    + intros recipient company title. unfold validation_error. cbn.
      by rewrite G.
    + intros B. unfold validation_error. rewrite G. cbn.
      destruct B as [B | B]; apply truthy_true in B; rewrite B; cbn;
        [reflexivity | by rewrite andb_false_r].
Qed.

Lemma names_required_when_personalized_witness :
  (exists msg, validation_error Sample.custom_no_names = Some msg)
  /\ validation_error Sample.custom_named = None
  /\ validation_error Sample.generic_email = None.
Proof.
  destruct (names_required_when_personalized Sample.custom_no_names)
    as (H1 & _).
  destruct (names_required_when_personalized Sample.custom_named)
    as (_ & H2 & _).
  destruct (names_required_when_personalized Sample.generic_email)
    as (_ & _ & H3).
  split; [| split].
  - apply H1; [reflexivity | left; reflexivity].
  - apply H2; [reflexivity | discriminate | discriminate
               | left; discriminate].
  - apply H3; [reflexivity | left; discriminate].
Defined.

(** C2 as stated fails: a Personalized click with a custom instruction
    and no recipient or company is rejected, and nothing is sent. *)
Lemma custom_instruction_still_needs_names :
  message_type Sample.custom_no_names = Personalized
  /\ custom_prompt Sample.custom_no_names = py"Write a warm note to a CMO."
  /\ validation_error Sample.custom_no_names
     = Some py"❗ Please fill in recipient name and company name for a personalized message."
  /\ shown (final_world
              (rerun Sample.no_document Sample.no_file Sample.model_ok
                     (Sample.click_generate Sample.custom_no_names)
                     initial_session))
     = [st_error py"❗ Please fill in recipient name and company name for a personalized message."]
  /\ session_state
       (final_world
          (rerun Sample.no_document Sample.no_file Sample.model_ok
                 (Sample.click_generate Sample.custom_no_names)
                 initial_session))
     = initial_session.
Proof. repeat split. Qed.

(** ** Generation failure *)

(** C1, as the code has it: when the model call of a generate action
    raises, "Generation failed: " followed by the text of the exception is
    reported, the edited slot and the edit flag are as before, and the
    generated slot is set to the empty string. *)
Theorem generation_failure_state
    (Document : file -> result (list Paragraph))
    (os_path_exists : str -> bool) (model : str -> result str)
    (ui : Widgets) (s : Session) (prompt_template : str) (e : exn) :
  clicked ui = ClickGenerate ->
  validation_error (form ui) = None ->
  load_sales_prompt Document os_path_exists (platform (form ui))
  = Ret prompt_template ->
  model (final_prompt prompt_template (form ui)) = Raise e ->
  let out := rerun Document os_path_exists model ui s in
  (exists w, out = Done tt w)
  /\ errors_shown (shown (final_world out))
     = [py"Generation failed: " ++ exn_str e]
  /\ model_calls (shown (final_world out))
     = [final_prompt prompt_template (form ui)]
  /\ edited_message (session_state (final_world out)) = edited_message s
  /\ show_edit (session_state (final_world out)) = show_edit s
  /\ generated_message (session_state (final_world out)) = Some py"".
Proof.
  intros C V L M out. subst out.
  rewrite (rerun_generate_fails _ _ _ _ _ _ _ C V L M).
  split; [by eexists |].
  cbn [final_world show fresh session_state shown]. rewrite app_nil_l.
  rewrite !model_calls_app, !errors_shown_app.
  destruct (display_edited_quiet
              {| generated_message := Some py"";
                 edited_message := edited_message s;
                 show_edit := show_edit s |}) as [-> ->].
  by repeat split.
Qed.

Lemma generation_failure_state_witness :
  generated_message
    (session_state
       (final_world
          (rerun Sample.no_document Sample.no_file Sample.model_down
                 (Sample.click_generate Sample.generic_email)
                 Sample.edited_session)))
  = Some py""
  /\ edited_message
       (session_state
          (final_world
             (rerun Sample.no_document Sample.no_file Sample.model_down
                    (Sample.click_generate Sample.generic_email)
                    Sample.edited_session)))
     = Some py"Hey Ana".
Proof.
  destruct (generation_failure_state Sample.no_document Sample.no_file
              Sample.model_down (Sample.click_generate Sample.generic_email)
              Sample.edited_session
              (default [] (default_prompts !! py"Email"))
              (Exception py"429 quota exceeded")
              eq_refl eq_refl eq_refl eq_refl)
    as (_ & _ & _ & He & _ & Hg).
  split; [exact Hg | exact He].
Defined.

(** C1 as stated fails: the generated slot held a message before the
    failed call and is empty after it. *)
Lemma generation_failure_empties_generated :
  Sample.model_down
    (final_prompt (default [] (default_prompts !! py"Email"))
                  Sample.generic_email)
  = Raise (Exception py"429 quota exceeded")
  /\ generated_message Sample.edited_session = Some py"Hello Ana"
  /\ generated_message
       (session_state
          (final_world
             (rerun Sample.no_document Sample.no_file Sample.model_down
                    (Sample.click_generate Sample.generic_email)
                    Sample.edited_session)))
     = Some py""
  /\ session_state
       (final_world
          (rerun Sample.no_document Sample.no_file Sample.model_down
                 (Sample.click_generate Sample.generic_email)
                 Sample.edited_session))
     <> Sample.edited_session.
Proof. repeat split. vm_compute. discriminate. Qed.

(** ** Editing *)

(** C8: an edit click with an instruction that is not blank sends one
    prompt: the fixed sentence with the platform name, the trimmed
    instruction, "Original Message:" and the stored generated message.
    The edited slot plays no part in it, and the generated slot is as
    before after the edit, so the next edit revises the same message. *)
Theorem edit_revises_generated
    (Document : file -> result (list Paragraph))
    (os_path_exists : str -> bool) (model : str -> result str)
    (ui : Widgets) (s : Session) (generated : str) :
  clicked ui = ClickEdit ->
  strip (edit_instruction ui) <> [] ->
  generated_message s = Some generated -> generated <> [] ->
  show_edit s = Some true ->
  let prompt :=
    (py"Please revise the following " ++ platform (form ui)
     ++ py" message based on this instruction:" ++ NL)
    ++ (strip (edit_instruction ui) ++ NL ++ NL)
    ++ (py"Original Message:" ++ NL ++ generated) in
  let out := rerun Document os_path_exists model ui s in
  model_calls (shown (final_world out)) = [prompt]
  /\ generated_message (session_state (final_world out)) = Some generated
  /\ show_edit (session_state (final_world out)) = Some true
  /\ (forall previous : option str,
        model_calls
          (shown (final_world (rerun Document os_path_exists model ui
                                     (set_edited previous s))))
        = [prompt])
  /\ (forall (model' : str -> result str) (ui' : Widgets),
        clicked ui' = ClickEdit ->
        strip (edit_instruction ui') <> [] ->
        model_calls
          (shown (final_world (rerun Document os_path_exists model' ui'
                                     (session_state (final_world out)))))
        = [edit_prompt (platform (form ui')) (edit_instruction ui')
                       generated]).
Proof.
  intros C B G N S prompt out.
  assert (Calls : forall model0 ui0 s0,
            clicked ui0 = ClickEdit -> strip (edit_instruction ui0) <> [] ->
            generated_message s0 = Some generated -> show_edit s0 = Some true ->
            let out0 := rerun Document os_path_exists model0 ui0 s0 in
            model_calls (shown (final_world out0))
            = [edit_prompt (platform (form ui0)) (edit_instruction ui0)
                           generated]
            /\ generated_message (session_state (final_world out0))
               = Some generated
            /\ show_edit (session_state (final_world out0)) = Some true).
  { intros model0 ui0 s0 C0 B0 G0 S0 out0. subst out0.
    assert (O : edit_offered s0 = true).
    { unfold edit_offered. rewrite G0, S0. cbn. rewrite andb_true_r.
      by apply truthy_true. }
    destruct (model0 (edit_prompt (platform (form ui0)) (edit_instruction ui0)
                        (default py"" (generated_message s0))))
      as [r | e] eqn:M.
    - rewrite (rerun_edit_succeeds _ _ _ _ _ _ C0 O B0 M).
      cbn [final_world show fresh session_state shown]. rewrite app_nil_l.
      rewrite !model_calls_app.
      destruct (display_generated_quiet (platform (form ui0)) s0) as [-> _].
      destruct (display_edited_quiet (set_edited (Some r) s0)) as [-> _].
      rewrite G0. by repeat split.
    - rewrite (rerun_edit_fails _ _ _ _ _ _ C0 O B0 M).
      cbn [final_world show fresh session_state shown]. rewrite app_nil_l.
      rewrite !model_calls_app.
      destruct (display_generated_quiet (platform (form ui0)) s0) as [-> _].
      destruct (display_edited_quiet s0) as [-> _].
      rewrite G0. by repeat split. }
  destruct (Calls model ui s C B G S) as (H1 & H2 & H3).
  split; [exact H1 |]. split; [exact H2 |]. split; [exact H3 |]. split.
  - intros previous. by apply (Calls model ui (set_edited previous s)).
  - intros model' ui' C' B'. by apply Calls.
Qed.

Lemma edit_revises_generated_witness :
  model_calls
    (shown (final_world
              (rerun Sample.no_document Sample.no_file Sample.model_ok
                     (Sample.click_edit Sample.generic_email py" shorter ")
                     Sample.edited_session)))
  = [py"Please revise the following Email message based on this instruction:"
     ++ NL ++ py"shorter" ++ NL ++ NL ++ py"Original Message:" ++ NL
     ++ py"Hello Ana"].
Proof.
  apply (edit_revises_generated Sample.no_document Sample.no_file
           Sample.model_ok
           (Sample.click_edit Sample.generic_email py" shorter ")
           Sample.edited_session py"Hello Ana");
    [reflexivity | discriminate | reflexivity | discriminate | reflexivity].
Defined.

(** An edit instruction of one space is not empty, and the edit button
    is offered on the stored session; yet the click sends no prompt: line
    170 tests the trimmed instruction, and the page shows the warning of
    the [else] branch. *)
Lemma whitespace_edit_sends_no_prompt :
  clicked (Sample.click_edit Sample.generic_email py" ") = ClickEdit
  /\ edit_instruction (Sample.click_edit Sample.generic_email py" ") <> []
  /\ edit_offered Sample.edited_session = true
  /\ model_calls
       (shown (final_world
                 (rerun Sample.no_document Sample.no_file Sample.model_ok
                        (Sample.click_edit Sample.generic_email py" ")
                        Sample.edited_session)))
     = []
  /\ warnings_shown
       (shown (final_world
                 (rerun Sample.no_document Sample.no_file Sample.model_ok
                        (Sample.click_edit Sample.generic_email py" ")
                        Sample.edited_session)))
     = [py"Please provide some instructions before editing."].
Proof.
  split; [reflexivity |].
  split; [by vm_compute |].
  split; [reflexivity |].
  split; vm_compute; reflexivity.
Qed.

(** ** A custom instruction of whitespace *)

Lemma validation_ignores_blank_instruction (f : Form) :
  Forall (fun c => is_space c = true) (custom_prompt f) ->
  validation_error f = validation_error (set_custom_prompt [] f).
Proof.
  intros W. unfold validation_error. cbn [set_custom_prompt user_content
    custom_prompt message_type recipient_name company_name].
  by rewrite (strip_blank _ W).
Qed.

Lemma validation_accepts_named (f : Form) :
  strip (user_content f) <> [] ->
  strip (recipient_name f) <> [] -> strip (company_name f) <> [] ->
  validation_error f = None.
Proof.
  intros B R C. unfold validation_error.
  apply truthy_true in B, R, C. rewrite B, R, C. cbn.
  by rewrite andb_false_r.
Qed.

Lemma instruction_selects_custom_branch (f : Form) :
  message_type f = Personalized -> custom_prompt f <> [] ->
  select_branch f = CustomBranch
  /\ forall prompt_template,
       final_prompt prompt_template f = custom_branch_prompt f.
Proof.
  intros P N. apply truthy_true in N.
  unfold final_prompt, select_branch. by rewrite P, N.
Qed.

(** C10, as the code has it: for a Personalized generate action with a
    recipient and a company, a background that is not blank and a custom
    instruction that is not empty but is all whitespace, the validation
    decides as it does for an empty instruction and accepts the click,
    and the prompt is the custom shape, with the whitespace as the
    instruction and without the template, where an empty instruction
    gives the structured shape. *)
Theorem blank_instruction_selects_custom_branch
    (f : Form) (prompt_template : str) :
  message_type f = Personalized ->
  custom_prompt f <> [] ->
  Forall (fun c => is_space c = true) (custom_prompt f) ->
  strip (user_content f) <> [] ->
  strip (recipient_name f) <> [] -> strip (company_name f) <> [] ->
  strip (custom_prompt f) = []
  /\ validation_error f = None
  /\ (forall background,
        validation_error (set_user_content background f)
        = validation_error
            (set_custom_prompt [] (set_user_content background f)))
  /\ select_branch f = CustomBranch
  /\ select_branch (set_custom_prompt [] f) = StructuredBranch
  /\ final_prompt prompt_template f
     = custom_prompt f ++ NL ++ NL
       ++ py"(Here is some background info to help craft the "
       ++ platform f ++ py" message:)" ++ NL ++ NL
       ++ slice_to 10000 (user_content f)
  /\ (forall other_template,
        final_prompt other_template f = final_prompt prompt_template f).
Proof.
  intros P N W B R C.
  destruct (instruction_selects_custom_branch f P N) as [Hsel Hp].
  split; [by apply strip_blank |]. split; [| split; [| split; [| split]]].
  - by apply validation_accepts_named.
  - intros background. by apply validation_ignores_blank_instruction.
  - exact Hsel.
  - unfold select_branch. cbn. by rewrite P.
  - split; [apply Hp |]. intros other_template. by rewrite !Hp.
Qed.

Lemma blank_instruction_selects_custom_branch_witness :
  validation_error Sample.blank_custom = None
  /\ select_branch Sample.blank_custom = CustomBranch.
Proof.
  destruct (blank_instruction_selects_custom_branch Sample.blank_custom
              py"template") as (_ & Hv & _ & Hs & _).
  - reflexivity.
  - discriminate.
  - repeat constructor.
  - discriminate.
  - discriminate.
  - discriminate.
  - split; [exact Hv | exact Hs].
Defined.

(** C10 as stated fails: with a whitespace instruction and a background
    the click is still rejected when the recipient or the company is
    missing, and then no prompt is built at all. *)
Lemma blank_instruction_without_names_is_rejected :
  message_type Sample.blank_custom_no_names = Personalized
  /\ custom_prompt Sample.blank_custom_no_names = py" "
  /\ strip (custom_prompt Sample.blank_custom_no_names) = []
  /\ strip (user_content Sample.blank_custom_no_names) <> []
  /\ validation_error Sample.blank_custom_no_names
     = Some py"❗ Please fill in recipient name and company name for a personalized message."
  /\ model_calls
       (shown (final_world
                 (rerun Sample.no_document Sample.no_file Sample.model_ok
                        (Sample.click_generate Sample.blank_custom_no_names)
                        initial_session)))
     = [].
Proof. repeat split. vm_compute. discriminate. Qed.

(** ** Runs *)

Section RunFacts.

Variable Document : file -> result (list Paragraph).
Variable os_path_exists : str -> bool.

#[local] Abbreviation step_from := (step Document os_path_exists).
#[local] Abbreviation run_from := (run Document os_path_exists).

Lemma edit_offered_generated (s : Session) :
  edit_offered s = true ->
  exists g, generated_message s = Some g /\ g <> [].
Proof.
  unfold edit_offered. intros [H _]%andb_true_iff.
  destruct (generated_message s) as [g|]; [| discriminate].
  exists g. split; [reflexivity | by apply truthy_true].
Qed.

(** What one interaction can do to the session. *)
Lemma step_cases (s : Session) (st : Step) :
  step_from s st = s
  \/ (clicked (step_ui st) = ClickGenerate
      /\ exists r, step_from s st
                   = {| generated_message := Some r;
                        edited_message := Some [];
                        show_edit := Some true |})
  \/ (clicked (step_ui st) = ClickGenerate
      /\ step_from s st
         = {| generated_message := Some [];
              edited_message := edited_message s;
              show_edit := show_edit s |})
  \/ (exists g r, generated_message s = Some g /\ g <> []
                  /\ revises st g r
                  /\ step_from s st = set_edited (Some r) s).
Proof.
  unfold step. destruct st as [model ui]. cbn [step_model step_ui].
  destruct (clicked ui) eqn:C.
  - left. by rewrite (rerun_idle _ _ _ _ _ C).
  - destruct (validation_error (form ui)) as [msg|] eqn:V.
    { left. by rewrite (rerun_rejected _ _ _ _ _ _ C V). }
    destruct (load_sales_prompt Document os_path_exists (platform (form ui)))
      as [tpl|e] eqn:L.
    2:{ left. by rewrite (rerun_no_template _ _ _ _ _ _ C V L). }
    destruct (model (final_prompt tpl (form ui))) as [r|e] eqn:M.
    + right. left. split; [reflexivity |]. exists r.
      by rewrite (rerun_generate_succeeds _ _ _ _ _ _ _ C V L M).
    + right. right. left. split; [reflexivity |].
      by rewrite (rerun_generate_fails _ _ _ _ _ _ _ C V L M).
  - destruct (edit_offered s) eqn:O.
    2:{ left. by rewrite (rerun_edit_hidden _ _ _ _ _ C O). }
    destruct (strip (edit_instruction ui)) as [|c t] eqn:B.
    { left. by rewrite (rerun_edit_blank _ _ _ _ _ C O B). }
    assert (B' : strip (edit_instruction ui) <> []) by (rewrite B; discriminate).
    destruct (edit_offered_generated s O) as (g & G & N).
    destruct (model (edit_prompt (platform (form ui)) (edit_instruction ui)
                       (default py"" (generated_message s))))
      as [r|e] eqn:M.
    + right. right. right. exists g, r.
      rewrite (rerun_edit_succeeds _ _ _ _ _ _ C O B' M).
      rewrite G in M. repeat split; assumption.
    + left. by rewrite (rerun_edit_fails _ _ _ _ _ _ C O B' M).
Qed.

Lemma run_snoc (steps : list Step) (st : Step) (s : Session) :
  run_from (steps ++ [st]) s = step_from (run_from steps s) st.
Proof. apply foldl_snoc. Qed.

(** Whenever a non-empty edited message is stored next to a non-empty
    generated message, an edit click of the run got the first from the
    model as the revision of the second, which was the stored generated
    message at that click. *)
Lemma edited_revises_stored (steps : list Step) (r : str) :
  edited_message (run_from steps initial_session) = Some r -> r <> [] ->
  generated_message (run_from steps initial_session) = Some []
  \/ exists g before st after,
       steps = before ++ st :: after
       /\ generated_message (run_from steps initial_session) = Some g
       /\ generated_message (run_from before initial_session) = Some g
       /\ revises st g r.
Proof.
  revert r. induction steps as [|st steps IH] using rev_ind; intros r E N.
  - discriminate.
  - rewrite run_snoc in E |- *.
    destruct (step_cases (run_from steps initial_session) st)
      as [U | [[_ [r' U]] | [[_ U] | (g & r' & G & Ng & Rv & U)]]];
      rewrite U in E |- *.
    + destruct (IH r E N) as [H | (g & before & st0 & after & -> & G & B & Rv)];
        [by left | right].
      exists g, before, st0, (after ++ [st]).
      rewrite <- app_assoc.
      split; [reflexivity |]. split; [exact G |]. split; [exact B | exact Rv].
    + cbn in E. congruence.
    + by left.
    + right. cbn in E. injection E as ->.
      exists g, steps, st, [].
      split; [reflexivity |]. split; [exact G |]. split; [exact G | exact Rv].
Qed.

End RunFacts.

(** C3, as the code has it: a generate action whose model call succeeds
    stores the answer and empties the edited slot, whatever the slot held
    and whether or not an edit came before; a generate action that is
    rejected leaves the session as it was, and one whose model call raises
    leaves the edited slot as it was and empties the generated slot.  So
    at any point of any run a non-empty edited message is the model's
    revision of the generated message stored with it, unless that one is
    empty. *)
Theorem successful_generate_clears_edited
    (Document : file -> result (list Paragraph))
    (os_path_exists : str -> bool) :
  (forall model ui s prompt_template r,
     clicked ui = ClickGenerate ->
     validation_error (form ui) = None ->
     load_sales_prompt Document os_path_exists (platform (form ui))
     = Ret prompt_template ->
     model (final_prompt prompt_template (form ui)) = Ret r ->
     session_state (final_world (rerun Document os_path_exists model ui s))
     = {| generated_message := Some r; edited_message := Some py"";
          show_edit := Some true |})
  /\ (forall model ui s msg,
        clicked ui = ClickGenerate ->
        validation_error (form ui) = Some msg ->
        session_state
          (final_world (rerun Document os_path_exists model ui s)) = s)
  /\ (forall model ui s prompt_template e,
        clicked ui = ClickGenerate ->
        validation_error (form ui) = None ->
        load_sales_prompt Document os_path_exists (platform (form ui))
        = Ret prompt_template ->
        model (final_prompt prompt_template (form ui)) = Raise e ->
        session_state
          (final_world (rerun Document os_path_exists model ui s))
        = {| generated_message := Some py"";
             edited_message := edited_message s;
             show_edit := show_edit s |})
  /\ (forall steps r,
        let s := run Document os_path_exists steps initial_session in
        edited_message s = Some r -> r <> [] ->
        generated_message s = Some py""
        \/ exists g before st after,
             steps = before ++ st :: after
             /\ generated_message s = Some g
             /\ generated_message
                  (run Document os_path_exists before initial_session)
                = Some g
             /\ revises st g r).
Proof.
  split; [| split; [| split]].
  - intros model ui s tpl r C V L M.
    by rewrite (rerun_generate_succeeds _ _ _ _ _ _ _ C V L M).
  - intros model ui s msg C V.
    by rewrite (rerun_rejected _ _ _ _ _ _ C V).
  - intros model ui s tpl e C V L M.
    by rewrite (rerun_generate_fails _ _ _ _ _ _ _ C V L M).
  - intros steps r s. apply edited_revises_stored.
Qed.

Lemma successful_generate_clears_edited_witness :
  edited_message Sample.edited_session = Some py"Hey Ana"
  /\ session_state
       (final_world
          (rerun Sample.no_document Sample.no_file Sample.model_ok
                 (Sample.click_generate Sample.generic_email)
                 Sample.edited_session))
     = {| generated_message := Some py"Hi Ana!";
          edited_message := Some py""; show_edit := Some true |}.
Proof.
  split; [reflexivity |].
  destruct (successful_generate_clears_edited Sample.no_document
              Sample.no_file) as [H _].
  apply (H Sample.model_ok (Sample.click_generate Sample.generic_email)
           Sample.edited_session
           (default [] (default_prompts !! py"Email")));
    reflexivity.
Defined.

(** C3 as stated fails: after a generate action whose model call raises,
    and after one that is rejected, the edited slot holds what it held;
    in the first case next to an empty generated slot. *)
Lemma unsuccessful_generate_keeps_edited :
  edited_message Sample.edited_session = Some py"Hey Ana"
  /\ edited_message
       (session_state
          (final_world
             (rerun Sample.no_document Sample.no_file Sample.model_down
                    (Sample.click_generate Sample.generic_email)
                    Sample.edited_session)))
     = Some py"Hey Ana"
  /\ generated_message
       (session_state
          (final_world
             (rerun Sample.no_document Sample.no_file Sample.model_down
                    (Sample.click_generate Sample.generic_email)
                    Sample.edited_session)))
     = Some py""
  /\ edited_message
       (session_state
          (final_world
             (rerun Sample.no_document Sample.no_file Sample.model_ok
                    (Sample.click_generate Sample.custom_no_names)
                    Sample.edited_session)))
     = Some py"Hey Ana".
Proof. repeat split. Qed.

(** * Further properties *)

(** ** The extension of an uploaded file *)

Lemma split_cons (sep c : char) (t : str) :
  split sep (c :: t)
  = if (c =? sep)%N then [] :: split sep t
    else match split sep t with
         | part :: parts => (c :: part) :: parts
         | [] => [[c]]
         end.
Proof. reflexivity. Qed.

Lemma split_not_nil (sep : char) (s : str) : split sep s <> [].
Proof.
  induction s as [|c t IH]; cbn [split]; [discriminate |].
  destruct (c =? sep)%N; [discriminate |].
  destruct (split sep t); [contradiction | discriminate].
Qed.

Lemma split_without (sep : char) (s : str) : sep ∉ s -> split sep s = [s].
Proof.
  induction s as [|c t IH]; intros H; [reflexivity |].
  apply not_elem_of_cons in H as [Hc Ht]. cbn [split].
  destruct (c =? sep)%N eqn:E; [apply N.eqb_eq in E; congruence |].
  by rewrite (IH Ht).
Qed.

Lemma split_app (sep : char) (stem rest : str) :
  split sep (stem ++ sep :: rest) = split sep stem ++ split sep rest.
Proof.
  induction stem as [|c stem IH].
  - change ([] ++ sep :: rest) with (sep :: rest).
    by rewrite split_cons, N.eqb_refl.
  - change ((c :: stem) ++ sep :: rest) with (c :: (stem ++ sep :: rest)).
    rewrite (split_cons sep c (stem ++ sep :: rest)), (split_cons sep c stem).
    destruct (c =? sep)%N; rewrite IH; [reflexivity |].
    pose proof (split_not_nil sep stem) as N.
    destruct (split sep stem); [contradiction | reflexivity].
Qed.

Lemma join_cons_head (sep : str) (c : char) (part : str)
    (parts : list str) :
  join sep ((c :: part) :: parts) = c :: join sep (part :: parts).
Proof. destruct parts; reflexivity. Qed.

Lemma join_split (sep : char) (s : str) : join [sep] (split sep s) = s.
Proof.
  induction s as [|c t IH]; [reflexivity |]. rewrite split_cons.
  pose proof (split_not_nil sep t) as N.
  destruct (split sep t) as [|part parts]; [contradiction |].
  destruct (c =? sep)%N eqn:E.
  - apply N.eqb_eq in E as ->.
    change (join [sep] ([] :: part :: parts))
      with (sep :: join [sep] (part :: parts)).
    by rewrite IH.
  - by rewrite join_cons_head, IH.
Qed.

Lemma last_occurrence (sep : char) (s : str) :
  sep ∈ s -> exists stem ext, s = stem ++ sep :: ext /\ sep ∉ ext.
Proof.
  induction s as [|c t IH]; intros H; [by apply elem_of_nil in H |].
  destruct (decide (sep ∈ t)) as [Ht | Ht].
  - destruct (IH Ht) as (stem & ext & -> & He). by exists (c :: stem), ext.
  - apply elem_of_cons in H as [-> | H]; [| contradiction].
    by exists [], t.
Qed.

Lemma item_last_split (sep : char) (stem ext : str) :
  sep ∉ ext ->
  item_last (split sep ext) = Ret ext
  /\ item_last (split sep (stem ++ sep :: ext)) = Ret ext.
Proof.
  intros H. unfold item_last.
  rewrite split_app, (split_without sep ext H), last_snoc. by split.
Qed.

(** X1: the extension the upload block computes is the text after the
    last dot of the file name, or the whole name when it has no dot; the
    lookup of the last part never fails. *)
Theorem extension_after_last_dot (name ext : str) :
  item_last (split 46 name) = Ret ext
  <-> (46%N ∉ ext) /\ (name = ext \/ exists stem, name = stem ++ [46%N] ++ ext).
Proof.
  split.
  - intros H. destruct (decide (46%N ∈ name)) as [D | D].
    + destruct (last_occurrence _ _ D) as (stem & e & -> & He).
      destruct (item_last_split 46 stem e He) as [_ L].
      rewrite L in H. injection H as <-. split; [exact He |].
      right. by exists stem.
    + destruct (item_last_split 46 [] name D) as [L _].
      rewrite L in H. injection H as <-. by split; [| left].
  - intros [He [-> | [stem ->]]].
    + by apply (item_last_split 46 []).
    + by apply item_last_split.
Qed.

Lemma extension_after_last_dot_witness :
  item_last (split 46 py"q3.report.final.docx") = Ret py"docx"
  /\ item_last (split 46 py"README") = Ret py"README".
Proof.
  split; apply extension_after_last_dot.
  - split; [| right; by exists py"q3.report.final"].
    apply (bool_decide_unpack (46%N ∉ py"docx")). vm_compute. exact I.
  - split; [| by left].
    apply (bool_decide_unpack (46%N ∉ py"README")). vm_compute. exact I.
Defined.

(** ** Scripts only add to the page *)

Lemma prefix_log_nil {A} (o : outcome A) : prefix_log [] o = o.
Proof. by destruct o as [a [s l] | e [s l]]. Qed.

Lemma prefix_log_app {A} (p q : list event) (o : outcome A) :
  prefix_log p (prefix_log q o) = prefix_log (p ++ q) o.
Proof. destruct o; cbn; by rewrite app_assoc. Qed.

Lemma appends_ret {A} (a : A) : appends_only (mret a : script A).
Proof. intros [s l]. cbn. unfold mret, script_ret. cbn. by rewrite app_nil_r. Qed.

Lemma appends_emit (ev : event) : appends_only (emit ev).
Proof. by intros [s l]. Qed.

Lemma appends_lift {A} (r : result A) : appends_only (lift r).
Proof. intros [s l]. destruct r; cbn; by rewrite app_nil_r. Qed.

Lemma appends_get : appends_only get_session.
Proof. intros [s l]. cbn. unfold get_session. cbn. by rewrite app_nil_r. Qed.

Lemma appends_put (s : Session) : appends_only (put_session s).
Proof. intros [s0 l]. cbn. unfold put_session. cbn. by rewrite app_nil_r. Qed.

Lemma appends_bind {A B} (m : script A) (k : A -> script B) :
  appends_only m -> (forall a, appends_only (k a)) ->
  appends_only (m ≫= k).
Proof.
  intros Hm Hk w. unfold mbind, script_bind. rewrite (Hm w).
  destruct (m (fresh (session_state w))) as [a w1 | e w1]; cbn; [| done].
  rewrite (Hk a). cbn. rewrite (Hk a w1), prefix_log_app. reflexivity.
Qed.

Lemma appends_try {A} (body : script A) (handler : exn -> script A) :
  appends_only body -> (forall e, appends_only (handler e)) ->
  appends_only (try_except body handler).
Proof.
  intros Hb Hh w. unfold try_except. rewrite (Hb w).
  destruct (body (fresh (session_state w))) as [a w1 | e w1]; cbn; [done |].
  rewrite (Hh e). cbn. rewrite (Hh e w1), prefix_log_app. reflexivity.
Qed.

Create HintDb appends.
#[local] Hint Resolve appends_ret appends_emit appends_lift appends_get
  appends_put : appends.

Ltac appends :=
  repeat first
    [ progress intros
    | apply appends_bind
    | apply appends_try
    | solve [auto with appends]
    | match goal with
      | |- appends_only (match ?x with _ => _ end) => destruct x
      | |- appends_only (if ?x then _ else _) => destruct x
      end ].

Section AppendsOnly.

Variable Document : file -> result (list Paragraph).
Variable pdfplumber_open : file -> result (list Page).
Variable Presentation : file -> result (list Slide).
Variable os_path_exists : str -> bool.
Variable model : str -> result str.
Variable UnicodeDecodeError : bytes -> exn.

Lemma generate_button_appends (f : Form) :
  appends_only (generate_button Document os_path_exists model f).
Proof.
  unfold generate_button, model_generate_content, set_generated_message,
    set_edited_message, set_show_edit. appends.
Qed.

Lemma edit_button_appends (pl instruction : str) :
  appends_only (edit_button model pl instruction).
Proof.
  unfold edit_button, model_generate_content, set_edited_message. appends.
Qed.

Lemma page_appends (ui : Widgets) :
  appends_only (page Document os_path_exists model ui).
Proof.
  unfold page.
  repeat first
    [ progress intros
    | apply generate_button_appends
    | apply edit_button_appends
    | apply appends_bind
    | solve [auto with appends]
    | match goal with
      | |- appends_only (match ?x with _ => _ end) => destruct x
      | |- appends_only (if ?x then _ else _) => destruct x
      end ].
Qed.

Lemma upload_appends (f : option UploadedFile) :
  appends_only (upload Document pdfplumber_open Presentation
                       UnicodeDecodeError f).
Proof. unfold upload. appends. Qed.

End AppendsOnly.

(** ** The whole script *)

Section AppFacts.

Variable Document : file -> result (list Paragraph).
Variable pdfplumber_open : file -> result (list Page).
Variable Presentation : file -> result (list Slide).
Variable os_path_exists : str -> bool.
Variable model : str -> result str.
Variable UnicodeDecodeError : bytes -> exn.

#[local] Abbreviation upload_file :=
  (upload Document pdfplumber_open Presentation UnicodeDecodeError).
#[local] Abbreviation run_app :=
  (app_run Document pdfplumber_open Presentation os_path_exists model
           UnicodeDecodeError).
#[local] Abbreviation run_page := (rerun Document os_path_exists model).

Lemma upload_by_extension (u : UploadedFile) (ext : str) (w : World) :
  item_last (split 46 (file_name u)) = Ret ext ->
  upload_file (Some u) w
  = (if bool_decide (ext = py"docx")
     then lift (read_docx Document (Upload u))
     else if bool_decide (ext = py"pdf")
     then lift (read_pdf pdfplumber_open (Upload u))
     else if bool_decide (ext = py"pptx")
     then lift (read_pptx Presentation (Upload u))
     else if bool_decide (ext = py"txt") then
       match read_txt u with
       | Some text => mret text
       | None => lift (Raise (UnicodeDecodeError (file_read u)))
       end
     else emit (st_error py"Unsupported file type.");; mret py"") w.
Proof.
  intros H. unfold upload, mbind at 1, script_bind at 1, lift at 1.
  by rewrite H.
Qed.

Lemma app_run_done (inp : Inputs) (s : Session) (content : str)
    (evs : list event) :
  (forall w, upload_file (uploaded_file inp) w = Done content (show evs w)) ->
  run_app inp s
  = prefix_log (head_shown inp evs) (run_page (widgets_of inp content) s).
Proof.
  intros H. unfold app_run, app, rerun.
  unfold mbind at 1, script_bind at 1, emit at 1.
  unfold mbind at 1, script_bind at 1. rewrite H.
  unfold head_shown, widgets_of, custom_prompt_of.
  destruct (is_personalized (message_type_box inp));
    unfold mbind, script_bind, emit, mret, script_ret, show; cbn -[page];
    rewrite page_appends; cbn -[page]; unfold fresh;
    by rewrite <- ?app_assoc, ?app_nil_r.
Qed.

Lemma app_run_crash (inp : Inputs) (s : Session) (e : exn) :
  (forall w, upload_file (uploaded_file inp) w = Crash e w) ->
  run_app inp s
  = Crash e (show [st_subheader py"📁 Upload a Document"] (fresh s)).
Proof.
  intros H. unfold app_run, app.
  unfold mbind at 1, script_bind at 1, emit at 1.
  unfold mbind at 1, script_bind at 1. by rewrite H.
Qed.

End AppFacts.

(** ** What one run shows and sends *)

Lemma writes_app (a b : list event) : writes (a ++ b) = writes a ++ writes b.
Proof. apply omap_app. Qed.

Lemma warnings_shown_app (a b : list event) :
  warnings_shown (a ++ b) = warnings_shown a ++ warnings_shown b.
Proof. apply omap_app. Qed.

Lemma writes_display (pl : str) (s : Session) :
  writes (display_generated pl s) ++ writes (display_edited s)
  = stored_messages s.
Proof.
  unfold display_generated, display_edited, stored_messages.
  destruct (generated_message s) as [[|c g]|], (edited_message s) as [[|d e]|],
    (show_edit s) as [[]|]; reflexivity.
Qed.

Lemma display_generated_set_edited (pl : str) (v : option str) (s : Session) :
  display_generated pl (set_edited v s) = display_generated pl s.
Proof. reflexivity. Qed.

Section RunShape.

Variable Document : file -> result (list Paragraph).
Variable os_path_exists : str -> bool.
Variable model : str -> result str.

#[local] Abbreviation run_page := (rerun Document os_path_exists model).

(** The shape of every run of the page: what the generate handler shows,
    the generated message, what the edit handler shows, the edited
    message. *)
Lemma rerun_shape (ui : Widgets) (s : Session) :
  (exists e, clicked ui = ClickGenerate /\ run_page ui s = Crash e (fresh s))
  \/ exists (A B : list event) (s' : Session),
       run_page ui s
       = Done tt {| session_state := s';
                    shown := A ++ display_generated (platform (form ui)) s'
                             ++ B ++ display_edited s' |}
       /\ writes (A ++ B) = []
       /\ length (model_calls (A ++ B)) <= 1
       /\ (clicked ui = NoClick -> A ++ B = [] /\ s' = s).
Proof.
  destruct (clicked ui) eqn:C.
  - right. exists [], [], s. rewrite (rerun_idle _ _ _ _ _ C).
    split; [reflexivity |]. repeat split; cbn; lia.
  - destruct (validation_error (form ui)) as [msg|] eqn:V.
    { right. exists [st_error msg], [], s.
      rewrite (rerun_rejected _ _ _ _ _ _ C V).
      split; [reflexivity |]. repeat split; cbn; (lia || discriminate). }
    destruct (load_sales_prompt Document os_path_exists (platform (form ui)))
      as [tpl|e] eqn:L.
    2:{ left. exists e. by rewrite (rerun_no_template _ _ _ _ _ _ C V L). }
    destruct (model (final_prompt tpl (form ui))) as [r|e] eqn:M.
    + right.
      exists [generate_content (final_prompt tpl (form ui));
              st_success (py"✅ " ++ platform (form ui)
                          ++ py" Message Generated!")], [],
        {| generated_message := Some r; edited_message := Some py"";
           show_edit := Some true |}.
      rewrite (rerun_generate_succeeds _ _ _ _ _ _ _ C V L M).
      split; [reflexivity |]. repeat split; cbn; (lia || discriminate).
    + right.
      exists [generate_content (final_prompt tpl (form ui));
              st_error (py"Generation failed: " ++ exn_str e)], [],
        {| generated_message := Some py"";
           edited_message := edited_message s; show_edit := show_edit s |}.
      rewrite (rerun_generate_fails _ _ _ _ _ _ _ C V L M).
      split; [reflexivity |]. repeat split; cbn; (lia || discriminate).
  - destruct (edit_offered s) eqn:O.
    2:{ right. exists [], [], s. rewrite (rerun_edit_hidden _ _ _ _ _ C O).
        split; [reflexivity |]. repeat split; cbn; (lia || discriminate). }
    destruct (strip (edit_instruction ui)) as [|c t] eqn:B.
    { right.
      exists [], [st_warning py"Please provide some instructions before editing."], s.
      rewrite (rerun_edit_blank _ _ _ _ _ C O B).
      split; [reflexivity |]. repeat split; cbn; (lia || discriminate). }
    assert (B' : strip (edit_instruction ui) <> [])
      by (rewrite B; discriminate).
    destruct (model (edit_prompt (platform (form ui)) (edit_instruction ui)
                       (default py"" (generated_message s))))
      as [r|e] eqn:M.
    + right.
      exists [], [generate_content
                    (edit_prompt (platform (form ui)) (edit_instruction ui)
                       (default py"" (generated_message s)));
                  st_success py"✅ Edited Message Ready"],
        (set_edited (Some r) s).
      rewrite (rerun_edit_succeeds _ _ _ _ _ _ C O B' M).
      split; [reflexivity |]. repeat split; cbn; (lia || discriminate).
    + right.
      exists [], [generate_content
                    (edit_prompt (platform (form ui)) (edit_instruction ui)
                       (default py"" (generated_message s)));
                  st_error (py"Editing failed: " ++ exn_str e)], s.
      rewrite (rerun_edit_fails _ _ _ _ _ _ C O B' M).
      split; [reflexivity |]. repeat split; cbn; (lia || discriminate).
Qed.

End RunShape.

Lemma show_nil (w : World) : show [] w = w.
Proof. destruct w. unfold show. cbn. by rewrite app_nil_r. Qed.

Lemma head_shown_quiet (inp : Inputs) (evs : list event) :
  writes (head_shown inp evs) = writes evs
  /\ model_calls (head_shown inp evs) = model_calls evs.
Proof.
  unfold head_shown. rewrite !writes_app, !model_calls_app.
  destruct (is_personalized _); cbn; by rewrite !app_nil_r.
Qed.

Section WholeScript.

Variable Document : file -> result (list Paragraph).
Variable pdfplumber_open : file -> result (list Page).
Variable Presentation : file -> result (list Slide).
Variable os_path_exists : str -> bool.
Variable model : str -> result str.
Variable UnicodeDecodeError : bytes -> exn.

#[local] Abbreviation upload_file :=
  (upload Document pdfplumber_open Presentation UnicodeDecodeError).
#[local] Abbreviation run_app :=
  (app_run Document pdfplumber_open Presentation os_path_exists model
           UnicodeDecodeError).

Lemma extension_exists (name : str) :
  exists ext, item_last (split 46 name) = Ret ext.
Proof.
  unfold item_last. destruct (last (split 46 name)) as [ext|] eqn:L;
    [by exists ext |].
  apply last_None in L. by apply split_not_nil in L.
Qed.

(** The upload block either stops the script or hands over a text,
    showing at most the error of an unsupported type. *)
Lemma upload_cases (f : option UploadedFile) :
  (exists e, forall w, upload_file f w = Crash e w)
  \/ exists content evs,
       (forall w, upload_file f w = Done content (show evs w))
       /\ writes evs = [] /\ model_calls evs = [].
Proof.
  destruct f as [u|].
  2:{ right. exists py"", []. split; [| by split].
      intros w. by rewrite show_nil. }
  destruct (extension_exists (file_name u)) as [ext E].
  assert (Lift : forall r : result str,
            (exists e, forall w, lift r w = Crash e w)
            \/ exists content evs,
                 (forall w, lift r w = Done content (show evs w))
                 /\ writes evs = [] /\ model_calls evs = []).
  { intros [c|e]; [right | left; by exists e].
    exists c, []. split; [| by split]. intros w. by rewrite show_nil. }
  destruct (bool_decide (ext = py"docx")) eqn:D1;
    [| destruct (bool_decide (ext = py"pdf")) eqn:D2;
       [| destruct (bool_decide (ext = py"pptx")) eqn:D3;
          [| destruct (bool_decide (ext = py"txt")) eqn:D4]]].
  - destruct (Lift (read_docx Document (Upload u)))
      as [[e H] | (c & evs & H & Q)]; [left; exists e | right; exists c, evs];
      [| split; [| exact Q]]; intros w;
      by rewrite (upload_by_extension _ _ _ _ _ _ _ E), D1.
  - destruct (Lift (read_pdf pdfplumber_open (Upload u)))
      as [[e H] | (c & evs & H & Q)]; [left; exists e | right; exists c, evs];
      [| split; [| exact Q]]; intros w;
      by rewrite (upload_by_extension _ _ _ _ _ _ _ E), D1, D2.
  - destruct (Lift (read_pptx Presentation (Upload u)))
      as [[e H] | (c & evs & H & Q)]; [left; exists e | right; exists c, evs];
      [| split; [| exact Q]]; intros w;
      by rewrite (upload_by_extension _ _ _ _ _ _ _ E), D1, D2, D3.
  - destruct (read_txt u) as [text|] eqn:T.
    + right. exists text, []. split; [| by split]. intros w.
      rewrite (upload_by_extension _ _ _ _ _ _ _ E), D1, D2, D3, D4, T.
      by rewrite show_nil.
    + left. exists (UnicodeDecodeError (file_read u)). intros w.
      by rewrite (upload_by_extension _ _ _ _ _ _ _ E), D1, D2, D3, D4, T.
  - right. exists py"", [st_error py"Unsupported file type."].
    split; [| by split]. intros w.
    by rewrite (upload_by_extension _ _ _ _ _ _ _ E), D1, D2, D3, D4.
Qed.

(** X2: one run of the script sends at most one prompt to the model, and
    a run in which no button was clicked sends none and leaves the session
    as it was. *)
Theorem at_most_one_prompt_per_run (inp : Inputs) (s : Session) :
  length (model_calls (shown (final_world (run_app inp s)))) <= 1
  /\ (button inp = NoClick ->
      model_calls (shown (final_world (run_app inp s))) = []
      /\ session_state (final_world (run_app inp s)) = s).
Proof.
  destruct (upload_cases (uploaded_file inp))
    as [[e H] | (c & evs & H & _ & Hc)].
  { rewrite (app_run_crash _ _ _ _ _ _ _ _ _ H). cbn. split; [lia | done]. }
  rewrite (app_run_done _ _ _ _ _ _ _ _ _ _ H).
  destruct (head_shown_quiet inp evs) as [_ Hh]. rewrite Hc in Hh.
  destruct (rerun_shape Document os_path_exists model (widgets_of inp c) s)
    as [(e & _ & ->) | (A & B & s' & -> & _ & Hn & Hidle)].
  { cbn [prefix_log final_world shown session_state fresh].
    rewrite app_nil_r, Hh. cbn. split; [lia | done]. }
  cbn [prefix_log final_world shown session_state].
  rewrite !model_calls_app, Hh.
  destruct (display_generated_quiet (platform (form (widgets_of inp c))) s')
    as [-> _].
  destruct (display_edited_quiet s') as [-> _].
  rewrite model_calls_app in Hn. cbn [app]. rewrite app_nil_r.
  split; [exact Hn |]. intros C. destruct (Hidle C) as [E ->].
  apply app_eq_nil in E as [-> ->]. by split.
Qed.

(** X3: when a run reaches the end of the script, the messages it has
    written on the page are exactly the non-empty slots of the session it
    leaves, the generated message before the edited one. *)
Theorem page_shows_stored_messages (inp : Inputs) (s : Session) (w : World) :
  run_app inp s = Done tt w ->
  writes (shown w) = stored_messages (session_state w).
Proof.
  destruct (upload_cases (uploaded_file inp))
    as [[e H] | (c & evs & H & Hw & _)].
  { by rewrite (app_run_crash _ _ _ _ _ _ _ _ _ H). }
  rewrite (app_run_done _ _ _ _ _ _ _ _ _ _ H).
  destruct (head_shown_quiet inp evs) as [Hh _]. rewrite Hw in Hh.
  destruct (rerun_shape Document os_path_exists model (widgets_of inp c) s)
    as [(e & _ & ->) | (A & B & s' & -> & Hq & _)]; [discriminate |].
  intros E. apply (f_equal final_world) in E.
  cbn [final_world prefix_log] in E. subst w. cbn [shown session_state].
  rewrite (writes_app A B) in Hq. apply app_eq_nil in Hq as [HA HB].
  rewrite !writes_app, Hh, HA, HB. cbn [app].
  apply writes_display.
Qed.

End WholeScript.

Lemma at_most_one_prompt_per_run_witness :
  model_calls
    (shown (final_world
              (Demo.app_generic Sample.model_ok (Some Demo.notes_txt) NoClick
                                Sample.edited_session)))
  = []
  /\ session_state
       (final_world
          (Demo.app_generic Sample.model_ok (Some Demo.notes_txt) NoClick
                            Sample.edited_session))
     = Sample.edited_session.
Proof.
  apply (at_most_one_prompt_per_run Sample.no_document Demo.no_pdf
           Demo.no_pptx Sample.no_file Sample.model_ok Demo.decode_error
           (Demo.generic (Some Demo.notes_txt) NoClick)
           Sample.edited_session).
  reflexivity.
Defined.

Lemma page_shows_stored_messages_witness :
  writes
    (shown (final_world
              (Demo.app_generic Sample.model_ok (Some Demo.notes_txt)
                                ClickGenerate Sample.edited_session)))
  = [py"Hi Ana!"].
Proof.
  rewrite (page_shows_stored_messages Sample.no_document Demo.no_pdf
             Demo.no_pptx Sample.no_file Sample.model_ok Demo.decode_error
             (Demo.generic (Some Demo.notes_txt) ClickGenerate)
             Sample.edited_session
             (final_world
                (Demo.app_generic Sample.model_ok (Some Demo.notes_txt)
                                  ClickGenerate Sample.edited_session)));
    reflexivity.
Defined.

(** ** Uploads *)

(** ** What the uploader lets through *)

Lemma ascii_lower_dot (c : char) : ascii_lower c = 46%N <-> c = 46%N.
Proof.
  unfold ascii_lower.
  destruct ((65 <=? c) && (c <=? 90))%N eqn:E; [| done].
  apply andb_true_iff in E as [E1 E2].
  apply N.leb_le in E1, E2. split; intros H; lia.
Qed.

Lemma split_lower (s : str) :
  split 46 (map ascii_lower s) = map (map ascii_lower) (split 46 s).
Proof.
  induction s as [|c t IH]; [reflexivity |].
  change (map ascii_lower (c :: t)) with (ascii_lower c :: map ascii_lower t).
  rewrite !split_cons, IH.
  destruct (c =? 46)%N eqn:E.
  - apply N.eqb_eq in E. subst c. reflexivity.
  - assert (E' : (ascii_lower c =? 46)%N = false).
    { apply N.eqb_neq. rewrite ascii_lower_dot. by apply N.eqb_neq. }
    rewrite E'. by destruct (split 46 t).
Qed.

Lemma last_map {A B} (f : A -> B) (l : list A) :
  last (map f l) = f <$> last l.
Proof. apply (fmap_last f l). Qed.

Lemma item_last_lower (name ext : str) :
  item_last (split 46 name) = Ret ext ->
  item_last (split 46 (map ascii_lower name)) = Ret (map ascii_lower ext).
Proof.
  unfold item_last. rewrite split_lower, last_map.
  destruct (last (split 46 name)); [| discriminate].
  intros [= ->]. reflexivity.
Qed.

Lemma endswith_b_spec (suffix s : str) :
  endswith_b suffix s = true <-> exists stem, s = stem ++ suffix.
Proof.
  unfold endswith_b. rewrite startswith_b_spec. unfold startswith. split.
  - intros [rest H]. exists (reverse rest).
    apply (inj reverse). by rewrite reverse_app, reverse_involutive.
  - intros [stem ->]. exists (reverse stem). by rewrite reverse_app.
Qed.

Lemma accepted_extension (name ext : str) :
  uploader_accepts name = true ->
  item_last (split 46 name) = Ret ext ->
  map ascii_lower ext ∈ uploader_types.
Proof.
  intros A E. apply item_last_lower in E.
  unfold uploader_accepts in A. apply existsb_exists in A as (t & T & A).
  apply endswith_b_spec in A as [stem A]. rewrite A in E.
  assert (D : (46%N : char) ∉ t).
  { apply list_elem_of_In in T. unfold uploader_types in T.
    rewrite !elem_of_cons in T.
    destruct T as [-> | [-> | [-> | [-> | T]]]];
      [| | | | by apply elem_of_nil in T];
      apply (bool_decide_unpack _); vm_compute; exact I. }
  destruct (item_last_split 46 stem t D) as [_ L].
  rewrite L in E. injection E as <-. by apply list_elem_of_In.
Qed.

Example uploader_accepts_examples :
  uploader_accepts py"notes.txt" = true
  /\ uploader_accepts py"REPORT.PDF" = true
  /\ uploader_accepts py"deck.v2.Pptx" = true
  /\ uploader_accepts py"README" = false
  /\ uploader_accepts py"photo.png" = false.
Proof. repeat split. Qed.

Section Uploads.

Variable Document : file -> result (list Paragraph).
Variable pdfplumber_open : file -> result (list Page).
Variable Presentation : file -> result (list Slide).
Variable os_path_exists : str -> bool.
Variable model : str -> result str.
Variable UnicodeDecodeError : bytes -> exn.

#[local] Abbreviation upload_file :=
  (upload Document pdfplumber_open Presentation UnicodeDecodeError).
#[local] Abbreviation run_app :=
  (app_run Document pdfplumber_open Presentation os_path_exists model
           UnicodeDecodeError).

(** X4: when the reader chosen for the uploaded file raises (the parsing
    library rejects the file, or a txt is not valid UTF-8), every run of
    the script stops there with that exception, whatever was clicked:
    nothing is sent to the model and the session is as it was. *)
Theorem unreadable_upload_stops_the_script
    (inp : Inputs) (s : Session) (u : UploadedFile) (ext : str) (e : exn) :
  uploaded_file inp = Some u ->
  item_last (split 46 (file_name u)) = Ret ext ->
  (ext = py"docx" /\ Document (Upload u) = Raise e)
  \/ (ext = py"pdf" /\ pdfplumber_open (Upload u) = Raise e)
  \/ (ext = py"pptx" /\ Presentation (Upload u) = Raise e)
  \/ (ext = py"txt" /\ utf8_decode (file_read u) = None
      /\ e = UnicodeDecodeError (file_read u)) ->
  run_app inp s
  = Crash e {| session_state := s;
               shown := [st_subheader py"📁 Upload a Document"] |}.
Proof.
  intros U E H.
  rewrite (app_run_crash Document pdfplumber_open Presentation os_path_exists
             model UnicodeDecodeError inp s e); [reflexivity |].
  intros w. rewrite U, (upload_by_extension _ _ _ _ _ _ _ E).
  destruct H as [[-> H] | [[-> H] | [[-> H] | (-> & H & ->)]]].
  - rewrite bool_decide_eq_true_2 by reflexivity.
    unfold read_docx. by rewrite H.
  - rewrite bool_decide_eq_false_2 by discriminate.
    rewrite bool_decide_eq_true_2 by reflexivity.
    unfold read_pdf. by rewrite H.
  - rewrite !bool_decide_eq_false_2 by discriminate.
    rewrite bool_decide_eq_true_2 by reflexivity.
    unfold read_pptx. by rewrite H.
  - rewrite !bool_decide_eq_false_2 by discriminate.
    rewrite bool_decide_eq_true_2 by reflexivity.
    unfold read_txt. by rewrite H.
Qed.

(** X5: the uploader lets through the names that end, letter case
    aside, in a dot and one of its four types; the script compares the
    extension with the four types as they are.  So a file that arrives
    with an extension none of the comparisons matches has one of the four
    in other letter case (REPORT.PDF): it is answered with "Unsupported
    file type." and read by no reader, and apart from that message the run
    is the run without an upload. *)
Theorem case_variant_upload_is_unsupported
    (inp : Inputs) (s : Session) (u : UploadedFile) (ext : str) :
  uploaded_file inp = Some u ->
  uploader_accepts (file_name u) = true ->
  item_last (split 46 (file_name u)) = Ret ext ->
  ext ∉ uploader_types ->
  map ascii_lower ext ∈ uploader_types
  /\ run_app inp s
     = prefix_log (head_shown inp [st_error py"Unsupported file type."])
                  (rerun Document os_path_exists model (widgets_of inp py"")
                         s)
  /\ run_app (without_file inp) s
     = prefix_log (head_shown inp [])
                  (rerun Document os_path_exists model (widgets_of inp py"")
                         s).
Proof.
  intros U A E H. split; [exact (accepted_extension _ _ A E) |].
  unfold uploader_types in H. rewrite !not_elem_of_cons in H.
  destruct H as (H1 & H2 & H3 & H4 & _). split.
  - apply app_run_done. intros w.
    rewrite U, (upload_by_extension _ _ _ _ _ _ _ E).
    by rewrite !bool_decide_eq_false_2.
  - apply (app_run_done _ _ _ _ _ _ (without_file inp)). intros w.
    cbn. by rewrite show_nil.
Qed.

End Uploads.

Lemma unreadable_upload_stops_the_script_witness :
  Demo.app_generic Sample.model_ok (Some Demo.broken_txt) ClickGenerate
                   Sample.edited_session
  = Crash (Demo.decode_error [x57; xff])
          {| session_state := Sample.edited_session;
             shown := [st_subheader py"📁 Upload a Document"] |}.
Proof.
  apply (unreadable_upload_stops_the_script Sample.no_document Demo.no_pdf
           Demo.no_pptx Sample.no_file Sample.model_ok Demo.decode_error
           (Demo.generic (Some Demo.broken_txt) ClickGenerate)
           Sample.edited_session Demo.broken_txt py"txt");
    [reflexivity | reflexivity |].
  right. right. right. repeat split.
Defined.

Lemma case_variant_upload_is_unsupported_witness :
  map ascii_lower py"PDF" = py"pdf"
  /\ errors_shown
       (shown (final_world
                 (Demo.app_generic Sample.model_ok (Some Demo.upper_pdf)
                                   ClickGenerate initial_session)))
     = [py"Unsupported file type.";
        py"❗ Please upload a document or enter a custom prompt before generating the message."].
Proof.
  destruct (case_variant_upload_is_unsupported Sample.no_document Demo.no_pdf
              Demo.no_pptx Sample.no_file Sample.model_ok Demo.decode_error
              (Demo.generic (Some Demo.upper_pdf) ClickGenerate)
              initial_session Demo.upper_pdf py"PDF") as (_ & H & _).
  - reflexivity.
  - reflexivity.
  - reflexivity.
  - apply (bool_decide_unpack (py"PDF" ∉ uploader_types)).
    vm_compute. exact I.
  - split; [reflexivity |].
    unfold Demo.app_generic. rewrite H. reflexivity.
Defined.

(** ** Generic mode *)

Section GenericMode.

Variable Document : file -> result (list Paragraph).
Variable pdfplumber_open : file -> result (list Page).
Variable Presentation : file -> result (list Slide).
Variable os_path_exists : str -> bool.
Variable model : str -> result str.
Variable UnicodeDecodeError : bytes -> exn.

#[local] Abbreviation upload_file :=
  (upload Document pdfplumber_open Presentation UnicodeDecodeError).
#[local] Abbreviation run_app :=
  (app_run Document pdfplumber_open Presentation os_path_exists model
           UnicodeDecodeError).
#[local] Abbreviation run_page := (rerun Document os_path_exists model).

Lemma generate_button_generic (f f' : Form) :
  message_type f = Generic -> message_type f' = Generic ->
  platform f = platform f' -> user_content f = user_content f' ->
  custom_prompt f = custom_prompt f' ->
  generate_button Document os_path_exists model f
  = generate_button Document os_path_exists model f'.
Proof.
  intros G G' P U C. unfold generate_button, validation_error, final_prompt,
    select_branch, generic_prompt.
  by rewrite G, G', P, U, C.
Qed.

Lemma page_congruence (ui ui' : Widgets) :
  generate_button Document os_path_exists model (form ui)
  = generate_button Document os_path_exists model (form ui') ->
  platform (form ui) = platform (form ui') ->
  edit_instruction ui = edit_instruction ui' ->
  clicked ui = clicked ui' ->
  page Document os_path_exists model ui
  = page Document os_path_exists model ui'.
Proof. intros Hg Hp He Hc. unfold page. by rewrite Hg, Hp, He, Hc. Qed.

(** X6: in Generic mode the prompt text area and the three
    personalization fields are never read: two runs that differ only in
    them have the same outcome, the same page and the same session. *)
Theorem generic_ignores_personal_inputs
    (inp : Inputs) (s : Session) (prompt recipient company title : str) :
  message_type_box inp = Generic ->
  run_app (set_personal_inputs prompt recipient company title inp) s
  = run_app inp s.
Proof.
  intros G.
  destruct (upload_cases Document pdfplumber_open Presentation
              UnicodeDecodeError (uploaded_file inp))
    as [[e H] | (c & evs & H & _)].
  - rewrite (app_run_crash _ _ _ _ _ _ inp s e H).
    by rewrite (app_run_crash _ _ _ _ _ _
                  (set_personal_inputs prompt recipient company title inp)
                  s e H).
  - rewrite (app_run_done _ _ _ _ _ _ inp s c evs H).
    rewrite (app_run_done _ _ _ _ _ _
               (set_personal_inputs prompt recipient company title inp)
               s c evs H).
    unfold head_shown, rerun.
    change (message_type_box
              (set_personal_inputs prompt recipient company title inp))
      with (message_type_box inp).
    rewrite (page_congruence
               (widgets_of
                  (set_personal_inputs prompt recipient company title inp) c)
               (widgets_of inp c)); try reflexivity.
    apply generate_button_generic; try reflexivity;
      cbn; unfold custom_prompt_of; cbn; by rewrite ?G.
Qed.

(** X7: in Generic mode a generate click without an uploaded document is
    always rejected with the "please upload" error, whatever else the
    form holds: nothing is sent and the session is as it was. *)
Theorem generic_needs_a_document (inp : Inputs) (s : Session) :
  message_type_box inp = Generic ->
  uploaded_file inp = None ->
  button inp = ClickGenerate ->
  session_state (final_world (run_app inp s)) = s
  /\ model_calls (shown (final_world (run_app inp s))) = []
  /\ errors_shown (shown (final_world (run_app inp s)))
     = [py"❗ Please upload a document or enter a custom prompt before generating the message."].
Proof.
  intros G U C.
  assert (H : forall w, upload_file (uploaded_file inp) w
                        = Done py"" (show [] w)).
  { intros w. rewrite U. cbn. by rewrite show_nil. }
  rewrite (app_run_done _ _ _ _ _ _ inp s py"" [] H).
  assert (V : validation_error (form (widgets_of inp py""))
              = Some py"❗ Please upload a document or enter a custom prompt before generating the message.").
  { unfold widgets_of, custom_prompt_of. rewrite G. reflexivity. }
  rewrite (rerun_rejected _ _ _ (widgets_of inp py"") s _ C V).
  cbn [prefix_log final_world session_state shown show fresh].
  rewrite app_nil_l, !model_calls_app, !errors_shown_app.
  destruct (display_generated_quiet
              (platform (form (widgets_of inp py""))) s) as [-> ->].
  destruct (display_edited_quiet s) as [-> ->].
  unfold head_shown. rewrite G. by repeat split.
Qed.

(** X8: with a txt upload that decodes to a text that is not blank, a
    Generic generate click and a model that answers, exactly one prompt is
    sent: the template, the generic sentence for the platform and the
    first 10,000 characters of the decoded text; the answer is stored,
    the edited slot emptied and the edit area switched on. *)
Theorem text_upload_generates
    (inp : Inputs) (s : Session) (u : UploadedFile)
    (text prompt_template r : str) :
  uploaded_file inp = Some u ->
  item_last (split 46 (file_name u)) = Ret py"txt" ->
  utf8_decode (file_read u) = Some text ->
  strip text <> [] ->
  message_type_box inp = Generic ->
  button inp = ClickGenerate ->
  load_sales_prompt Document os_path_exists (platform_box inp)
  = Ret prompt_template ->
  model ((prompt_template ++ NL ++ NL)
         ++ (py"Generate a **generic " ++ platform_box inp
             ++ py" message** using this content:" ++ NL ++ NL
             ++ slice_to 10000 text)) = Ret r ->
  model_calls (shown (final_world (run_app inp s)))
  = [(prompt_template ++ NL ++ NL)
     ++ (py"Generate a **generic " ++ platform_box inp
         ++ py" message** using this content:" ++ NL ++ NL
         ++ slice_to 10000 text)]
  /\ session_state (final_world (run_app inp s))
     = {| generated_message := Some r; edited_message := Some py"";
          show_edit := Some true |}.
Proof.
  intros U E D B G C L M.
  assert (H : forall w, upload_file (uploaded_file inp) w
                        = Done text (show [] w)).
  { intros w. rewrite U, (upload_by_extension _ _ _ _ _ _ _ E).
    rewrite !bool_decide_eq_false_2 by discriminate.
    rewrite bool_decide_eq_true_2 by reflexivity.
    unfold read_txt. rewrite D. by rewrite show_nil. }
  rewrite (app_run_done _ _ _ _ _ _ inp s text [] H).
  assert (V : validation_error (form (widgets_of inp text)) = None).
  { unfold widgets_of, form_of, custom_prompt_of, validation_error.
    cbn [form user_content custom_prompt message_type recipient_name
         company_name].
    apply truthy_true in B. by rewrite G, B. }
  assert (P : final_prompt prompt_template (form (widgets_of inp text))
              = (prompt_template ++ NL ++ NL)
                ++ (py"Generate a **generic " ++ platform_box inp
                    ++ py" message** using this content:" ++ NL ++ NL
                    ++ slice_to 10000 text)).
  { unfold widgets_of, form_of, custom_prompt_of, final_prompt,
      select_branch.
    cbn [form message_type]. rewrite G. reflexivity. }
  rewrite <- P in M |- *.
  rewrite (rerun_generate_succeeds _ _ _ (widgets_of inp text) s _ _ C V L M).
  cbn [prefix_log final_world session_state shown show fresh].
  rewrite app_nil_l, !model_calls_app.
  destruct (display_generated_quiet
              (platform (form (widgets_of inp text)))
              {| generated_message := Some r; edited_message := Some py"";
                 show_edit := Some true |}) as [-> _].
  destruct (display_edited_quiet
              {| generated_message := Some r; edited_message := Some py"";
                 show_edit := Some true |}) as [-> _].
  unfold head_shown. rewrite G. by repeat split.
Qed.

End GenericMode.

Lemma generic_ignores_personal_inputs_witness :
  Demo.app_generic Sample.model_ok (Some Demo.notes_txt) ClickGenerate
                   initial_session
  = app_run Sample.no_document Demo.no_pdf Demo.no_pptx Sample.no_file
            Sample.model_ok Demo.decode_error
            (set_personal_inputs py"Ignore the document." py"Ana" py"Acme"
               py"CMO" (Demo.generic (Some Demo.notes_txt) ClickGenerate))
            initial_session.
Proof.
  symmetry.
  apply (generic_ignores_personal_inputs Sample.no_document Demo.no_pdf
           Demo.no_pptx Sample.no_file Sample.model_ok Demo.decode_error
           (Demo.generic (Some Demo.notes_txt) ClickGenerate)).
  reflexivity.
Defined.

Lemma generic_needs_a_document_witness :
  model_calls
    (shown (final_world
              (Demo.app_generic Sample.model_ok None ClickGenerate
                                Sample.edited_session)))
  = [].
Proof.
  apply (generic_needs_a_document Sample.no_document Demo.no_pdf
           Demo.no_pptx Sample.no_file Sample.model_ok Demo.decode_error
           (Demo.generic None ClickGenerate) Sample.edited_session);
    reflexivity.
Defined.

Lemma text_upload_generates_witness :
  session_state
    (final_world
       (Demo.app_generic Sample.model_ok (Some Demo.notes_txt) ClickGenerate
                         Sample.edited_session))
  = {| generated_message := Some py"Hi Ana!"; edited_message := Some py"";
       show_edit := Some true |}.
Proof.
  apply (text_upload_generates Sample.no_document Demo.no_pdf Demo.no_pptx
           Sample.no_file Sample.model_ok Demo.decode_error
           (Demo.generic (Some Demo.notes_txt) ClickGenerate)
           Sample.edited_session Demo.notes_txt
           py"We sell analytics software."
           (default [] (default_prompts !! py"Email")) py"Hi Ana!");
    try reflexivity.
  discriminate.
Defined.

(** ** Rejected and failed actions *)

Lemma strip_empty_iff (s : str) :
  strip s = [] <-> Forall (fun c => is_space c = true) s.
Proof.
  split; [| apply strip_blank].
  intros H. apply Forall_forall. intros c Hin.
  destruct (is_space c) eqn:E; [reflexivity |].
  pose proof (strip_keeps c s Hin E) as K. rewrite H in K.
  by apply elem_of_nil in K.
Qed.

Lemma truthy_strip_false (s : str) :
  truthy (strip s) = false <-> Forall (fun c => is_space c = true) s.
Proof. by rewrite truthy_false, strip_empty_iff. Qed.

(** X9: the generate handler answers with the "please upload" error
    exactly when the background and the custom instruction both consist
    of whitespace only (or are empty); the click then sends nothing and
    leaves the session as it was. *)
Theorem missing_content_is_rejected (f : Form) :
  (validation_error f
   = Some py"❗ Please upload a document or enter a custom prompt before generating the message."
   <-> Forall (fun c => is_space c = true) (user_content f)
       /\ Forall (fun c => is_space c = true) (custom_prompt f))
  /\ (Forall (fun c => is_space c = true) (user_content f) ->
      Forall (fun c => is_space c = true) (custom_prompt f) ->
      forall Document os_path_exists model edit_instruction s,
        session_state
          (final_world
             (rerun Document os_path_exists model
                    {| form := f; edit_instruction := edit_instruction;
                       clicked := ClickGenerate |} s)) = s
        /\ model_calls
             (shown (final_world
                       (rerun Document os_path_exists model
                              {| form := f;
                                 edit_instruction := edit_instruction;
                                 clicked := ClickGenerate |} s))) = []).
Proof.
  assert (R : Forall (fun c => is_space c = true) (user_content f) ->
              Forall (fun c => is_space c = true) (custom_prompt f) ->
              validation_error f
              = Some py"❗ Please upload a document or enter a custom prompt before generating the message.").
  { intros U C. unfold validation_error.
    apply truthy_strip_false in U, C. by rewrite U, C. }
  split; [split |].
  - unfold validation_error.
    destruct (truthy (strip (user_content f))) eqn:U;
      destruct (truthy (strip (custom_prompt f))) eqn:C; cbn [negb andb];
      try (intros _; split; by apply truthy_strip_false);
      destruct (is_personalized (message_type f) && _);
      intros H; try discriminate; exfalso; revert H; vm_compute;
      discriminate.
  - intros [U C]. by apply R.
  - intros U C Document os_path_exists model edit_instruction s.
    destruct (rejected_click_is_inert Document os_path_exists model
                {| form := f; edit_instruction := edit_instruction;
                   clicked := ClickGenerate |} s _ eq_refl (R U C))
      as (H1 & H2 & _).
    by split.
Qed.

Lemma missing_content_is_rejected_witness :
  model_calls
    (shown (final_world
              (rerun Sample.no_document Sample.no_file Sample.model_ok
                     {| form := set_user_content (py"  " ++ NL)
                                  Sample.generic_email;
                        edit_instruction := py"";
                        clicked := ClickGenerate |}
                     Sample.edited_session)))
  = [].
Proof.
  destruct (missing_content_is_rejected
              (set_user_content (py"  " ++ NL) Sample.generic_email))
    as [_ H].
  apply H.
  - repeat constructor.
  - constructor.
Defined.

Section FailedActions.

Variable Document : file -> result (list Paragraph).
Variable os_path_exists : str -> bool.
Variable model : str -> result str.

#[local] Abbreviation run_page := (rerun Document os_path_exists model).

(** X10: an edit click with an instruction of whitespace only gets the
    warning "Please provide some instructions before editing.": nothing
    is sent and the session is as it was. *)
Theorem blank_edit_instruction_is_refused (ui : Widgets) (s : Session) :
  clicked ui = ClickEdit ->
  edit_offered s = true ->
  Forall (fun c => is_space c = true) (edit_instruction ui) ->
  session_state (final_world (run_page ui s)) = s
  /\ model_calls (shown (final_world (run_page ui s))) = []
  /\ warnings_shown (shown (final_world (run_page ui s)))
     = [py"Please provide some instructions before editing."]
  /\ writes (shown (final_world (run_page ui s))) = stored_messages s.
Proof.
  intros C O B. apply strip_empty_iff in B.
  rewrite (rerun_edit_blank _ _ _ _ _ C O B).
  cbn [final_world show fresh session_state shown]. rewrite app_nil_l.
  rewrite !model_calls_app, !warnings_shown_app, !writes_app.
  destruct (display_generated_quiet (platform (form ui)) s) as [-> _].
  destruct (display_edited_quiet s) as [-> _].
  repeat split.
  - unfold display_generated, display_edited.
    destruct (truthy_opt _); [destruct (default false _) |];
      destruct (truthy_opt _); reflexivity.
  - cbn [writes omap list_omap app]. apply writes_display.
Qed.

(** X11: when the model call of an edit raises, "Editing failed: "
    followed by the text of the exception is reported and the session is
    as it was: both slots keep their message and both are still
    displayed. *)
Theorem edit_failure_keeps_session (ui : Widgets) (s : Session) (e : exn) :
  clicked ui = ClickEdit ->
  edit_offered s = true ->
  strip (edit_instruction ui) <> [] ->
  model (edit_prompt (platform (form ui)) (edit_instruction ui)
                     (default py"" (generated_message s))) = Raise e ->
  session_state (final_world (run_page ui s)) = s
  /\ errors_shown (shown (final_world (run_page ui s)))
     = [py"Editing failed: " ++ exn_str e]
  /\ writes (shown (final_world (run_page ui s))) = stored_messages s.
Proof.
  intros C O B M. rewrite (rerun_edit_fails _ _ _ _ _ _ C O B M).
  cbn [final_world show fresh session_state shown]. rewrite app_nil_l.
  rewrite !errors_shown_app, !writes_app.
  destruct (display_generated_quiet (platform (form ui)) s) as [_ ->].
  destruct (display_edited_quiet s) as [_ ->].
  repeat split. cbn [writes omap list_omap app]. apply writes_display.
Qed.

(** X12: after a generate action whose model call succeeds the page
    shows the success message and then, only if the answer is not empty,
    the answer and the edit area; an empty answer is stored and announced
    as generated but nothing of it is displayed and no edit is offered. *)
Theorem generated_answer_is_shown_if_not_empty
    (ui : Widgets) (s : Session) (prompt_template r : str) :
  clicked ui = ClickGenerate ->
  validation_error (form ui) = None ->
  load_sales_prompt Document os_path_exists (platform (form ui))
  = Ret prompt_template ->
  model (final_prompt prompt_template (form ui)) = Ret r ->
  shown (final_world (run_page ui s))
  = [generate_content (final_prompt prompt_template (form ui));
     st_success (py"✅ " ++ platform (form ui) ++ py" Message Generated!")]
    ++ (if truthy r
        then [st_subheader (py"📨 Your " ++ platform (form ui)
                            ++ py" Message");
              st_write r;
              st_subheader py"✏️ Refine the Message"]
        else [])
  /\ edit_offered (session_state (final_world (run_page ui s))) = truthy r.
Proof.
  intros C V L M. rewrite (rerun_generate_succeeds _ _ _ _ _ _ _ C V L M).
  cbn [final_world show fresh session_state shown]. rewrite app_nil_l.
  unfold display_generated, display_edited, edit_offered.
  cbn [generated_message edited_message show_edit truthy_opt default
       from_option id].
  destruct r as [|c r]; cbn; by rewrite ?andb_true_r.
Qed.

(** X13: when the override document of the platform exists but cannot be
    opened, a generate click that passes validation stops the script
    with the exception of the docx library: the built-in default is not
    used, nothing is sent, the session is as it was and nothing below
    the button is displayed. *)
Theorem unreadable_override_stops_generation
    (ui : Widgets) (s : Session) (path : str) (e : exn) :
  clicked ui = ClickGenerate ->
  validation_error (form ui) = None ->
  filename_map !! platform (form ui) = Some path ->
  os_path_exists path = true ->
  Document (Path path) = Raise e ->
  run_page ui s = Crash e {| session_state := s; shown := [] |}.
Proof.
  intros C V F X D.
  apply (rerun_no_template _ _ _ _ _ _ C V).
  assert (K : platform (form ui) ∈ platforms).
  { destruct (platforms_decide (platform (form ui))) as [|N]; [done |].
    apply filename_map_unknown in N. rewrite N in F. discriminate. }
  apply filename_map_known in K as (path' & F' & N & _).
  rewrite F in F'. injection F' as <-.
  unfold load_sales_prompt. rewrite F. cbn [default from_option id].
  apply truthy_true in N. rewrite N, X. cbn [andb].
  unfold read_docx. by rewrite D.
Qed.

End FailedActions.

Lemma blank_edit_instruction_is_refused_witness :
  session_state
    (final_world
       (rerun Sample.no_document Sample.no_file Sample.model_ok
              (Sample.click_edit Sample.generic_email py"  ")
              Sample.edited_session))
  = Sample.edited_session.
Proof.
  apply (blank_edit_instruction_is_refused Sample.no_document Sample.no_file
           Sample.model_ok (Sample.click_edit Sample.generic_email py"  ")
           Sample.edited_session); [reflexivity | reflexivity |].
  repeat constructor.
Defined.

Lemma edit_failure_keeps_session_witness :
  session_state
    (final_world
       (rerun Sample.no_document Sample.no_file Sample.model_down
              (Sample.click_edit Sample.generic_email py"shorter")
              Sample.edited_session))
  = Sample.edited_session.
Proof.
  apply (edit_failure_keeps_session Sample.no_document Sample.no_file
           Sample.model_down
           (Sample.click_edit Sample.generic_email py"shorter")
           Sample.edited_session (Exception py"429 quota exceeded"));
    [reflexivity | reflexivity | discriminate | reflexivity].
Defined.

Lemma generated_answer_is_shown_if_not_empty_witness :
  edit_offered
    (session_state
       (final_world
          (rerun Sample.no_document Sample.no_file (fun _ => Ret py"")
                 (Sample.click_generate Sample.generic_email)
                 Sample.edited_session)))
  = false.
Proof.
  apply (generated_answer_is_shown_if_not_empty Sample.no_document
           Sample.no_file (fun _ => Ret py"")
           (Sample.click_generate Sample.generic_email)
           Sample.edited_session
           (default [] (default_prompts !! py"Email")) py"");
    reflexivity.
Defined.

Lemma unreadable_override_stops_generation_witness :
  rerun Sample.no_document (fun _ => true) Sample.model_ok
        (Sample.click_generate Sample.generic_email) Sample.edited_session
  = Crash (Exception py"Package not found")
          {| session_state := Sample.edited_session; shown := [] |}.
Proof.
  apply (unreadable_override_stops_generation Sample.no_document
           (fun _ => true) Sample.model_ok
           (Sample.click_generate Sample.generic_email)
           Sample.edited_session py"email.docx");
    reflexivity.
Defined.

(** ** Sessions a run can reach *)

Section Reachable.

Variable Document : file -> result (list Paragraph).
Variable os_path_exists : str -> bool.

#[local] Abbreviation step_from := (step Document os_path_exists).
#[local] Abbreviation run_from := (run Document os_path_exists).

Lemma step_outcomes (s : Session) (st : Step) :
  step_from s st = s
  \/ (exists r, step_from s st
                 = {| generated_message := Some r;
                      edited_message := Some py"";
                      show_edit := Some true |})
  \/ step_from s st
     = {| generated_message := Some py"";
          edited_message := edited_message s;
          show_edit := show_edit s |}
  \/ (edit_offered s = true
      /\ exists r, step_from s st = set_edited (Some r) s).
Proof.
  unfold step. destruct st as [model ui]. cbn [step_model step_ui].
  destruct (clicked ui) eqn:C.
  - left. by rewrite (rerun_idle _ _ _ _ _ C).
  - destruct (validation_error (form ui)) as [msg|] eqn:V.
    { left. by rewrite (rerun_rejected _ _ _ _ _ _ C V). }
    destruct (load_sales_prompt Document os_path_exists (platform (form ui)))
      as [tpl|e] eqn:L.
    2:{ left. by rewrite (rerun_no_template _ _ _ _ _ _ C V L). }
    destruct (model (final_prompt tpl (form ui))) as [r|e] eqn:M.
    + right. left. exists r.
      by rewrite (rerun_generate_succeeds _ _ _ _ _ _ _ C V L M).
    + right. right. left.
      by rewrite (rerun_generate_fails _ _ _ _ _ _ _ C V L M).
  - destruct (edit_offered s) eqn:O.
    2:{ left. by rewrite (rerun_edit_hidden _ _ _ _ _ C O). }
    destruct (strip (edit_instruction ui)) as [|c t] eqn:B.
    { left. by rewrite (rerun_edit_blank _ _ _ _ _ C O B). }
    assert (B' : strip (edit_instruction ui) <> [])
      by (rewrite B; discriminate).
    destruct (model (edit_prompt (platform (form ui)) (edit_instruction ui)
                       (default py"" (generated_message s))))
      as [r|e] eqn:M.
    + right. right. right. split; [reflexivity |]. exists r.
      by rewrite (rerun_edit_succeeds _ _ _ _ _ _ C O B' M).
    + left. by rewrite (rerun_edit_fails _ _ _ _ _ _ C O B' M).
Qed.

Lemma edit_offered_flag (s : Session) :
  edit_offered s = true ->
  show_edit s = Some true /\ generated_message s <> None.
Proof.
  unfold edit_offered. intros [G F]%andb_true_iff.
  destruct (show_edit s) as [[]|]; try discriminate.
  destruct (generated_message s); [by split | discriminate].
Qed.

Lemma step_well_formed (s : Session) (st : Step) :
  well_formed s -> well_formed (step_from s st).
Proof.
  intros (W1 & W2 & W3).
  destruct (step_outcomes s st) as [-> | [[r ->] | [-> | [O [r ->]]]]].
  - by repeat split.
  - repeat split; cbn; auto; try done.
  - repeat split; cbn; auto; try done.
  - destruct (edit_offered_flag s O) as [F G].
    repeat split; cbn; auto; try done.
Qed.

Lemma step_keeps_flag (s : Session) (st : Step) :
  show_edit s = Some true -> show_edit (step_from s st) = Some true.
Proof.
  intros F.
  by destruct (step_outcomes s st) as [-> | [[r ->] | [-> | [O [r ->]]]]].
Qed.

(** X14: in every session a run can reach from the empty one, the edit
    flag is unset or true, an edited message is stored only if the flag
    is set, and the flag is set only if a generated message is stored;
    once set, the flag stays set whatever follows. *)
Theorem reachable_sessions_are_well_formed (steps more : list Step) :
  well_formed (run_from steps initial_session)
  /\ (show_edit (run_from steps initial_session) = Some true ->
      show_edit (run_from (steps ++ more) initial_session) = Some true).
Proof.
  split.
  - induction steps as [|st steps IH] using rev_ind.
    + repeat split; cbn; auto; try done.
    + rewrite run_snoc. by apply step_well_formed.
  - unfold run. rewrite foldl_app.
    generalize (foldl step_from initial_session steps). intros s.
    revert s. induction more as [|st more IH]; intros s F; [exact F |].
    cbn [foldl]. apply IH. by apply step_keeps_flag.
Qed.

End Reachable.

Lemma reachable_sessions_are_well_formed_witness :
  show_edit
    (run Sample.no_document Sample.no_file
         ([ {| step_model := Sample.model_ok;
               step_ui := Sample.click_generate Sample.generic_email |} ]
          ++ [ {| step_model := Sample.model_down;
                  step_ui := Sample.click_generate Sample.generic_email |} ])
         initial_session)
  = Some true.
Proof.
  apply (reachable_sessions_are_well_formed Sample.no_document
           Sample.no_file).
  reflexivity.
Defined.

(** ** Empty extractions *)

Lemma join_nil_iff (sep : str) (units : list str) :
  Forall (fun t => t <> []) units ->
  join sep units = [] <-> units = [].
Proof.
  intros H. split; [| by intros ->].
  destruct H as [|t units Ht _]; [done |].
  destruct t as [|c t]; [done |]. destruct units; discriminate.
Qed.

Lemma filter_nonempty_nil (texts : list str) :
  filter (fun t => t <> []) texts = [] <-> Forall (fun t => t = []) texts.
Proof.
  induction texts as [|t texts IH].
  - split; [constructor | reflexivity].
  - rewrite filter_cons. destruct (decide (t <> [])) as [N | N].
    + split; [discriminate |]. intros H.
      apply Forall_cons in H as [H _]. contradiction.
    + apply dec_stable in N. rewrite IH, Forall_cons. tauto.
Qed.

Lemma read_pdf_units (pdfplumber_open : file -> result (list Page))
    (f : file) (pages : list Page) :
  pdfplumber_open f = Ret pages ->
  read_pdf pdfplumber_open f = Ret (join NL (pdf_units pages)).
Proof.
  intros H. unfold read_pdf. rewrite H. cbn [mbind result_bind].
  by rewrite pages_units.
Qed.

Lemma pdf_units_nil_iff (pages : list Page) :
  pdf_units pages = []
  <-> Forall (fun page => extract_text page = None
                          \/ extract_text page = Some [])
             pages.
Proof.
  unfold pdf_units. rewrite filter_nonempty_nil.
  induction pages as [|page pages IH]; cbn [omap list_omap].
  - split; constructor.
  - rewrite Forall_cons. destruct (extract_text page) as [t|].
    + rewrite Forall_cons, IH. split.
      * intros [-> ?]. split; [by right | done].
      * intros [[? | [= ->]] ?]; [done | by split].
    + rewrite IH. split; [intros ?; split; [by left | done] | tauto].
Qed.

Lemma pdf_units_nonempty (pages : list Page) :
  Forall (fun t => t <> []) (pdf_units pages).
Proof.
  apply Forall_forall. intros t Ht. unfold pdf_units in Ht.
  apply list_elem_of_filter in Ht. tauto.
Qed.

(** X15: the text read from a docx is empty exactly when every paragraph
    is blank, and the text read from a pdf exactly when no page gives any
    text; a single unit that is kept makes the result non-empty. *)
Theorem extraction_is_empty_iff_no_text
    (Document : file -> result (list Paragraph))
    (pdfplumber_open : file -> result (list Page)) (f : file) :
  (forall paragraphs, Document f = Ret paragraphs ->
     read_docx Document f = Ret []
     <-> Forall (fun para =>
                   Forall (fun c => is_space c = true) (para_text para))
                paragraphs)
  /\ (forall pages, pdfplumber_open f = Ret pages ->
        read_pdf pdfplumber_open f = Ret []
        <-> Forall (fun page => extract_text page = None
                                \/ extract_text page = Some [])
                   pages).
Proof.
  split.
  - intros paragraphs H. rewrite (read_docx_units _ _ _ H).
    split.
    + intros [= E]. apply join_nil_iff in E; [| apply docx_units_nonempty].
      apply filter_nonempty_nil in E. rewrite Forall_fmap in E.
      eapply Forall_impl; [exact E |]. intros para. apply strip_empty_iff.
    + intros E. f_equal. apply join_nil_iff; [apply docx_units_nonempty |].
      apply filter_nonempty_nil. rewrite Forall_fmap.
      eapply Forall_impl; [exact E |]. intros para. apply strip_empty_iff.
  - intros pages H. rewrite (read_pdf_units _ _ _ H). split.
    + intros [= E]. apply pdf_units_nil_iff.
      apply (join_nil_iff NL); [apply pdf_units_nonempty | exact E].
    + intros E. f_equal. apply join_nil_iff; [apply pdf_units_nonempty |].
      by apply pdf_units_nil_iff.
Qed.

Lemma extraction_is_empty_iff_no_text_witness :
  read_pdf (fun _ => Ret [ {| extract_text := None |};
                           {| extract_text := Some py"" |} ])
           Sample.report
  = Ret [].
Proof.
  destruct (extraction_is_empty_iff_no_text Sample.no_document
              (fun _ => Ret [ {| extract_text := None |};
                              {| extract_text := Some py"" |} ])
              Sample.report) as [_ H].
  apply (H _ eq_refl).
  constructor; [by left | constructor; [by right | constructor]].
Defined.

(** ** Whitespace around the edit instruction *)

Lemma lstrip_cons (c : char) (s : str) :
  lstrip (c :: s) = if is_space c then lstrip s else c :: s.
Proof. reflexivity. Qed.

Lemma lstrip_pad (pad s : str) :
  Forall (fun c => is_space c = true) pad -> lstrip (pad ++ s) = lstrip s.
Proof.
  induction 1 as [|c pad Hc _ IH]; [reflexivity |].
  change ((c :: pad) ++ s) with (c :: (pad ++ s)).
  by rewrite lstrip_cons, Hc.
Qed.

Lemma lstrip_nil_iff (s : str) :
  lstrip s = [] <-> Forall (fun c => is_space c = true) s.
Proof.
  split; [| apply lstrip_blank].
  induction s as [|c s IH]; [constructor |]. rewrite lstrip_cons.
  destruct (is_space c) eqn:E; [| discriminate].
  intros H. constructor; auto.
Qed.

Lemma lstrip_app (s pad : str) :
  lstrip s <> [] -> lstrip (s ++ pad) = lstrip s ++ pad.
Proof.
  induction s as [|c s IH]; [done |].
  change ((c :: s) ++ pad) with (c :: (s ++ pad)). rewrite !lstrip_cons.
  destruct (is_space c); [exact IH | reflexivity].
Qed.

Lemma strip_pad (before s after : str) :
  Forall (fun c => is_space c = true) before ->
  Forall (fun c => is_space c = true) after ->
  strip (before ++ s ++ after) = strip s.
Proof.
  intros Hb Ha. unfold strip, rstrip. rewrite (lstrip_pad before _ Hb).
  destruct (lstrip s) as [|c t] eqn:E.
  - apply lstrip_nil_iff in E.
    assert (B : lstrip (s ++ after) = []).
    { apply lstrip_nil_iff, Forall_app. by split. }
    by rewrite B.
  - rewrite lstrip_app by (rewrite E; discriminate). rewrite E.
    rewrite reverse_app. f_equal. apply lstrip_pad.
    by apply Forall_reverse.
Qed.

Section EditInstruction.

Variable Document : file -> result (list Paragraph).
Variable os_path_exists : str -> bool.
Variable model : str -> result str.

Lemma edit_button_strip (pl i i' : str) :
  strip i = strip i' -> edit_button model pl i = edit_button model pl i'.
Proof. intros H. unfold edit_button, edit_prompt. by rewrite H. Qed.

(** X16: whitespace before and after the edit instruction changes
    nothing: the run with the padded instruction has the same outcome,
    sends the same prompt and leaves the same session as the run with the
    instruction itself. *)
Theorem edit_instruction_padding_is_ignored
    (ui : Widgets) (s : Session) (before after : str) :
  Forall (fun c => is_space c = true) before ->
  Forall (fun c => is_space c = true) after ->
  rerun Document os_path_exists model
        (set_edit_instruction (before ++ edit_instruction ui ++ after) ui) s
  = rerun Document os_path_exists model ui s.
Proof.
  intros Hb Ha. unfold rerun, page.
  cbn [set_edit_instruction form edit_instruction clicked].
  by rewrite (edit_button_strip (platform (form ui))
                (before ++ edit_instruction ui ++ after)
                (edit_instruction ui) (strip_pad _ _ _ Hb Ha)).
Qed.

(** X17: a second successful edit replaces what the first one stored:
    after two edit clicks that the model answers, the edited slot holds
    the second answer and the generated slot and the flag are as they
    were before both. *)
Theorem second_edit_replaces_first
    (model' : str -> result str) (ui ui' : Widgets) (s : Session)
    (r r' : str) :
  clicked ui = ClickEdit -> clicked ui' = ClickEdit ->
  edit_offered s = true ->
  strip (edit_instruction ui) <> [] -> strip (edit_instruction ui') <> [] ->
  model (edit_prompt (platform (form ui)) (edit_instruction ui)
                     (default py"" (generated_message s))) = Ret r ->
  model' (edit_prompt (platform (form ui')) (edit_instruction ui')
                      (default py"" (generated_message s))) = Ret r' ->
  run Document os_path_exists
      [ {| step_model := model; step_ui := ui |};
        {| step_model := model'; step_ui := ui' |} ] s
  = set_edited (Some r') s.
Proof.
  intros C C' O B B' M M'. unfold run, step. cbn [foldl step_model step_ui].
  rewrite (rerun_edit_succeeds _ _ _ _ _ _ C O B M).
  cbn [final_world show fresh session_state].
  rewrite (rerun_edit_succeeds _ _ model' ui' (set_edited (Some r) s) r'
             C' O B' M').
  reflexivity.
Qed.

End EditInstruction.

Lemma edit_instruction_padding_is_ignored_witness :
  rerun Sample.no_document Sample.no_file Sample.model_ok
        (Sample.click_edit Sample.generic_email
                           (py"  " ++ py"shorter" ++ NL))
        Sample.edited_session
  = rerun Sample.no_document Sample.no_file Sample.model_ok
          (Sample.click_edit Sample.generic_email py"shorter")
          Sample.edited_session.
Proof.
  apply (edit_instruction_padding_is_ignored Sample.no_document
           Sample.no_file Sample.model_ok
           (Sample.click_edit Sample.generic_email py"shorter")
           Sample.edited_session py"  " NL);
    repeat constructor.
Defined.

Lemma second_edit_replaces_first_witness :
  run Sample.no_document Sample.no_file
      [ {| step_model := Sample.model_ok;
           step_ui := Sample.click_edit Sample.generic_email py"shorter" |};
        {| step_model := fun _ => Ret py"Dear Ana";
           step_ui := Sample.click_edit Sample.generic_email py"formal" |} ]
      Sample.edited_session
  = set_edited (Some py"Dear Ana") Sample.edited_session.
Proof.
  apply (second_edit_replaces_first Sample.no_document Sample.no_file
           Sample.model_ok (fun _ => Ret py"Dear Ana")
           (Sample.click_edit Sample.generic_email py"shorter")
           (Sample.click_edit Sample.generic_email py"formal")
           Sample.edited_session py"Hi Ana!" py"Dear Ana");
    (reflexivity || discriminate).
Defined.

(** ** The scraper's result *)

Section ScraperResult.

Variables Response Soup : Type.
Variables requests_get requests_get' : str -> N -> result Response.
Variables response_text response_text' : Response -> result str.
Variables BeautifulSoup BeautifulSoup' : str -> str -> result Soup.
Variables decompose_all decompose_all' : Soup -> list str -> result Soup.
Variables get_text get_text' : Soup -> str -> bool -> result str.

(** X18: the scraper never raises, and its result does not tell a failure
    from a success: a page whose visible text is "Error scraping
    website: " followed by some text gives the very string that a failed
    fetch with that error text gives. *)
Theorem scrape_result_hides_failure (url : str) (e : exn) :
  (exists text,
     scrape_website Response Soup requests_get response_text BeautifulSoup
                    decompose_all get_text url = Ret text)
  /\ (scrape_body Response Soup requests_get response_text BeautifulSoup
                  decompose_all get_text url = Raise e ->
      scrape_body Response Soup requests_get' response_text' BeautifulSoup'
                  decompose_all' get_text' url
      = Ret (py"Error scraping website: " ++ exn_str e) ->
      scrape_website Response Soup requests_get response_text BeautifulSoup
                     decompose_all get_text url
      = scrape_website Response Soup requests_get' response_text'
                       BeautifulSoup' decompose_all' get_text' url).
Proof.
  split.
  - unfold scrape_website. destruct (scrape_body _ _ _ _ _ _ _ url); eauto.
  - intros F S. unfold scrape_website. by rewrite F, S.
Qed.

End ScraperResult.

Lemma scrape_result_hides_failure_witness :
  scrape_website unit unit Sample.get_timeout Sample.unit_text
                 Sample.unit_soup Sample.unit_decompose Sample.unit_get_text
                 py"https://example.invalid"
  = scrape_website unit unit (fun _ _ => Ret tt) Sample.unit_text
                   Sample.unit_soup Sample.unit_decompose
                   (fun _ _ _ => Ret py"Error scraping website: Read timed out.")
                   py"https://example.invalid".
Proof.
  apply (scrape_result_hides_failure unit unit Sample.get_timeout
           (fun _ _ => Ret tt) Sample.unit_text Sample.unit_text
           Sample.unit_soup Sample.unit_soup Sample.unit_decompose
           Sample.unit_decompose Sample.unit_get_text
           (fun _ _ _ => Ret py"Error scraping website: Read timed out.")
           py"https://example.invalid" (Exception py"Read timed out."));
    reflexivity.
Defined.

(** ** The API key *)

(** X19: the key is the environment variable whenever that is set and
    not empty, and the secret store is then not consulted; an unset or
    empty variable falls back to the secret [gemini.api_key], taken as it
    is, even empty; the start fails exactly when the variable is unset or
    empty and the secret is missing. *)
Theorem api_key_resolution
    (os_getenv : str -> option str) (st_secrets : gmap str (gmap str str)) :
  (forall v, os_getenv py"GEMINI_API_KEY" = Some v -> v <> [] ->
     forall secrets, api_key os_getenv secrets = Some v)
  /\ (os_getenv py"GEMINI_API_KEY" = None
      \/ os_getenv py"GEMINI_API_KEY" = Some [] ->
      api_key os_getenv st_secrets
      = (gemini ← st_secrets !! py"gemini"; gemini !! py"api_key"))
  /\ (api_key os_getenv st_secrets = None
      <-> (os_getenv py"GEMINI_API_KEY" = None
           \/ os_getenv py"GEMINI_API_KEY" = Some [])
          /\ (gemini ← st_secrets !! py"gemini"; gemini !! py"api_key")
             = None).
Proof.
  unfold api_key. split; [| split].
  - intros v H N secrets. rewrite H. cbn. apply truthy_true in N.
    by rewrite N.
  - by intros [-> | ->].
  - destruct (os_getenv py"GEMINI_API_KEY") as [[|c v]|]; cbn [truthy_opt truthy].
    + split; [intros H; split; [by right | exact H] | tauto].
    + split; [discriminate | intros [[? | ?] _]; discriminate].
    + split; [intros H; split; [by left | exact H] | tauto].
Qed.

Lemma api_key_resolution_witness :
  api_key (fun _ => Some py"")
          {[ py"gemini" := {[ py"api_key" := py"secret-key" ]} ]}
  = Some py"secret-key".
Proof.
  destruct (api_key_resolution (fun _ => Some py"")
              {[ py"gemini" := {[ py"api_key" := py"secret-key" ]} ]})
    as (_ & H & _).
  rewrite H; [reflexivity | by right].
Defined.

(** ** Text files *)

Lemma byte_of_to_N (n : N) : (n < 256)%N -> Byte.to_N (byte_of n) = n.
Proof.
  intros H. unfold byte_of. destruct (Byte.of_N n) as [b|] eqn:E.
  - by apply Byte.to_of_N.
  - apply Byte.of_N_None_iff in E. lia.
Qed.

Lemma low6_mod (b : N) : low6 b = (b mod 64)%N.
Proof. unfold low6. change 63%N with (N.ones 6). apply N.land_ones. Qed.

Lemma land_1F (b : N) : N.land b 31 = (b mod 32)%N.
Proof. change 31%N with (N.ones 5). apply N.land_ones. Qed.

Lemma land_0F (b : N) : N.land b 15 = (b mod 16)%N.
Proof. change 15%N with (N.ones 4). apply N.land_ones. Qed.

Lemma land_07 (b : N) : N.land b 7 = (b mod 8)%N.
Proof. change 7%N with (N.ones 3). apply N.land_ones. Qed.

Ltac euclid_step a b :=
  let q := fresh "q" in
  let r := fresh "r" in
  let Hq := fresh in
  let Hr := fresh in
  pose proof (N.div_mod a b ltac:(discriminate)) as Hq;
  pose proof (N.mod_lt a b ltac:(discriminate)) as Hr;
  set (q := (a / b)%N) in *; set (r := (a mod b)%N) in *;
  clearbody q r.

(** Linear arithmetic with division and remainder by constants. *)
Ltac euclid :=
  repeat match goal with
  | H : context [byte_of _] |- _ => clear H
  end;
  repeat match goal with
  | |- context [(?a / ?b)%N] => euclid_step a b
  | |- context [(?a mod ?b)%N] => euclid_step a b
  | _ : context [(?a / ?b)%N] |- _ => euclid_step a b
  | _ : context [(?a mod ?b)%N] |- _ => euclid_step a b
  end;
  lia.

Lemma shiftl_6 (a : N) : N.shiftl a 6 = (a * 64)%N.
Proof. apply N.shiftl_mul_pow2. Qed.

Lemma shiftl_12 (a : N) : N.shiftl a 12 = (a * 4096)%N.
Proof. apply N.shiftl_mul_pow2. Qed.

Lemma shiftl_18 (a : N) : N.shiftl a 18 = (a * 262144)%N.
Proof. apply N.shiftl_mul_pow2. Qed.

Ltac bounds :=
  repeat match goal with
  | |- (_ && _) = true => apply andb_true_intro; split
  | |- (_ <=? _)%N = true => apply N.leb_le
  | |- (_ <? _)%N = true => apply N.ltb_lt
  | |- (_ <? _)%N = false => apply N.ltb_ge
  end.

Lemma decode_1 (x0 : byte) (rest : bytes) :
  (Byte.to_N x0 < 0x80)%N ->
  utf8_decode (x0 :: rest) = cons (Byte.to_N x0) <$> utf8_decode rest.
Proof. intros H. cbn [utf8_decode]. apply N.ltb_lt in H. by rewrite H. Qed.

Lemma decode_2 (x0 x1 : byte) (rest : bytes) :
  (0xC2 <= Byte.to_N x0 <= 0xDF)%N ->
  (0x80 <= Byte.to_N x1 <= 0xBF)%N ->
  utf8_decode (x0 :: x1 :: rest)
  = cons (Byte.to_N x0 mod 32 * 64 + Byte.to_N x1 mod 64)%N
      <$> utf8_decode rest.
Proof.
  intros [L0 U0] [L1 U1]. cbn [utf8_decode]. unfold is_cont.
  replace (Byte.to_N x0 <? 128)%N with false by (symmetry; bounds; lia).
  replace ((194 <=? Byte.to_N x0) && (Byte.to_N x0 <=? 223))%N with true
    by (symmetry; bounds; lia).
  replace ((128 <=? Byte.to_N x1) && (Byte.to_N x1 <=? 191))%N with true
    by (symmetry; bounds; lia).
  by rewrite land_1F, shiftl_6, low6_mod.
Qed.

Lemma decode_3 (x0 x1 x2 : byte) (rest : bytes) :
  (0xE0 <= Byte.to_N x0 <= 0xEF)%N ->
  (0x80 <= Byte.to_N x1 <= 0xBF)%N ->
  (Byte.to_N x0 = 0xE0 -> 0xA0 <= Byte.to_N x1)%N ->
  (Byte.to_N x0 = 0xED -> Byte.to_N x1 <= 0x9F)%N ->
  (0x80 <= Byte.to_N x2 <= 0xBF)%N ->
  utf8_decode (x0 :: x1 :: x2 :: rest)
  = cons (Byte.to_N x0 mod 16 * 4096 + Byte.to_N x1 mod 64 * 64
          + Byte.to_N x2 mod 64)%N
      <$> utf8_decode rest.
Proof.
  intros [L0 U0] [L1 U1] A B [L2 U2]. cbn [utf8_decode]. unfold is_cont.
  replace (Byte.to_N x0 <? 128)%N with false by (symmetry; bounds; lia).
  replace ((194 <=? Byte.to_N x0) && (Byte.to_N x0 <=? 223))%N with false
    by (symmetry; apply andb_false_iff; right; apply N.leb_gt; lia).
  replace ((224 <=? Byte.to_N x0) && (Byte.to_N x0 <=? 239))%N with true
    by (symmetry; bounds; lia).
  replace ((128 <=? Byte.to_N x2) && (Byte.to_N x2 <=? 191))%N with true
    by (symmetry; bounds; lia).
  replace ((if (Byte.to_N x0 =? 224)%N then 160%N else 128%N)
           <=? Byte.to_N x1)%N with true
    by (symmetry; destruct (N.eqb_spec (Byte.to_N x0) 224); bounds; auto;
        lia).
  replace (Byte.to_N x1
           <=? (if (Byte.to_N x0 =? 237)%N then 159%N else 191%N))%N
    with true
    by (symmetry; destruct (N.eqb_spec (Byte.to_N x0) 237); bounds; auto;
        lia).
  cbn [andb]. by rewrite land_0F, shiftl_12, shiftl_6, !low6_mod.
Qed.

Lemma decode_4 (x0 x1 x2 x3 : byte) (rest : bytes) :
  (0xF0 <= Byte.to_N x0 <= 0xF4)%N ->
  (0x80 <= Byte.to_N x1 <= 0xBF)%N ->
  (Byte.to_N x0 = 0xF0 -> 0x90 <= Byte.to_N x1)%N ->
  (Byte.to_N x0 = 0xF4 -> Byte.to_N x1 <= 0x8F)%N ->
  (0x80 <= Byte.to_N x2 <= 0xBF)%N ->
  (0x80 <= Byte.to_N x3 <= 0xBF)%N ->
  utf8_decode (x0 :: x1 :: x2 :: x3 :: rest)
  = cons (Byte.to_N x0 mod 8 * 262144 + Byte.to_N x1 mod 64 * 4096
          + Byte.to_N x2 mod 64 * 64 + Byte.to_N x3 mod 64)%N
      <$> utf8_decode rest.
Proof.
  intros [L0 U0] [L1 U1] A B [L2 U2] [L3 U3]. cbn [utf8_decode].
  unfold is_cont.
  replace (Byte.to_N x0 <? 128)%N with false by (symmetry; bounds; lia).
  replace ((194 <=? Byte.to_N x0) && (Byte.to_N x0 <=? 223))%N with false
    by (symmetry; apply andb_false_iff; right; apply N.leb_gt; lia).
  replace ((224 <=? Byte.to_N x0) && (Byte.to_N x0 <=? 239))%N with false
    by (symmetry; apply andb_false_iff; right; apply N.leb_gt; lia).
  replace ((240 <=? Byte.to_N x0) && (Byte.to_N x0 <=? 244))%N with true
    by (symmetry; bounds; lia).
  replace ((128 <=? Byte.to_N x2) && (Byte.to_N x2 <=? 191))%N with true
    by (symmetry; bounds; lia).
  replace ((128 <=? Byte.to_N x3) && (Byte.to_N x3 <=? 191))%N with true
    by (symmetry; bounds; lia).
  replace ((if (Byte.to_N x0 =? 240)%N then 144%N else 128%N)
           <=? Byte.to_N x1)%N with true
    by (symmetry; destruct (N.eqb_spec (Byte.to_N x0) 240); bounds; auto;
        lia).
  replace (Byte.to_N x1
           <=? (if (Byte.to_N x0 =? 244)%N then 143%N else 191%N))%N
    with true
    by (symmetry; destruct (N.eqb_spec (Byte.to_N x0) 244); bounds; auto;
        lia).
  cbn [andb]. by rewrite land_07, shiftl_18, shiftl_12, shiftl_6, !low6_mod.
Qed.

Lemma decode_encode_char (c : char) (rest : bytes) :
  is_scalar c = true ->
  utf8_decode (utf8_encode_char c ++ rest) = cons c <$> utf8_decode rest.
Proof.
  unfold is_scalar, utf8_encode_char. intros H.
  apply andb_true_iff in H as [S M]. apply N.ltb_lt in M.
  apply orb_true_iff in S.
  assert (S' : (c < 0xD800 \/ 0xDFFF < c)%N)
    by (destruct S as [S | S]; apply N.ltb_lt in S; auto).
  clear S.
  replace (c / 4096)%N with (c / 64 / 64)%N
    by (by rewrite N.Div0.div_div).
  replace (c / 262144)%N with (c / 64 / 64 / 64)%N
    by (by rewrite !N.Div0.div_div).
  destruct (N.ltb_spec c 0x80) as [C1 | C1].
  { rewrite <- app_comm_cons, app_nil_l.
    rewrite decode_1; rewrite byte_of_to_N; (reflexivity || lia). }
  destruct (N.ltb_spec c 0x800) as [C2 | C2].
  { rewrite <- !app_comm_cons, app_nil_l.
    rewrite decode_2; rewrite ?byte_of_to_N by euclid;
      [| split; euclid ..].
    f_equal. f_equal. euclid. }
  destruct (N.ltb_spec c 0x10000) as [C3 | C3].
  { rewrite <- !app_comm_cons, app_nil_l.
    rewrite decode_3; rewrite ?byte_of_to_N by euclid;
      [| split; euclid | split; euclid | intros ?; euclid | intros ?; euclid
       | split; euclid].
    f_equal. f_equal. euclid. }
  rewrite <- !app_comm_cons, app_nil_l.
  rewrite decode_4; rewrite ?byte_of_to_N by euclid;
    [| split; euclid | split; euclid | intros ?; euclid | intros ?; euclid
     | split; euclid | split; euclid].
  f_equal. f_equal. euclid.
Qed.

Lemma decode_encode (s : str) :
  Forall (fun c => is_scalar c = true) s ->
  utf8_decode (utf8_encode s) = Some s.
Proof.
  induction 1 as [|c s Hc _ IH]; [reflexivity |].
  unfold utf8_encode. cbn [mbind list_bind].
  fold (utf8_encode s). by rewrite (decode_encode_char c _ Hc), IH.
Qed.

(** X20: a text file that holds the UTF-8 encoding of a text reads back
    as exactly that text, character for character: nothing is trimmed or
    normalised, and a leading U+FEFF is kept as a character. *)
Theorem read_txt_inverts_utf8 (name s : str) :
  Forall (fun c => is_scalar c = true) s ->
  read_txt {| file_name := name; file_read := utf8_encode s |} = Some s
  /\ read_txt {| file_name := name;
                 file_read := utf8_encode (0xFEFF%N :: s) |}
     = Some (0xFEFF%N :: s).
Proof.
  intros H. unfold read_txt. cbn [file_read]. split.
  - by apply decode_encode.
  - apply decode_encode. by constructor.
Qed.

Lemma read_txt_inverts_utf8_witness :
  read_txt {| file_name := py"notes.txt";
              file_read := utf8_encode (py"  Grüße, 🔗 ✉️ " ++ NL) |}
  = Some (py"  Grüße, 🔗 ✉️ " ++ NL).
Proof.
  apply (read_txt_inverts_utf8 py"notes.txt" (py"  Grüße, 🔗 ✉️ " ++ NL)).
  apply (bool_decide_unpack
           (Forall (fun c => is_scalar c = true)
                   (py"  Grüße, 🔗 ✉️ " ++ NL))).
  vm_compute. exact I.
Defined.
